(** * chrome_driver.py: locating Chrome and bootstrapping the driver

    A shallow embedding of [src/chrome_driver.py].  The module talks to
    its host all the time (file system, PATH, a [flatpak] child process,
    the logger, the driver constructor), so every function is a
    computation over the disk that also records, in order, the calls it
    makes.  What the host answers is a parameter: a record of oracles. *)

From Stdlib Require Import ZArith Ascii String.
From stdpp Require Import base option list gmap strings.

Local Open Scope Z_scope.

(** ** Python strings *)

Module PyStr.

(** The two characters a Rocq literal cannot hold directly. *)
Definition dquote : string := String "034"%char EmptyString.
Definition newline : string := String "010"%char EmptyString.

(** [s.startswith(p)] *)
Definition startswith (s p : string) : bool := String.prefix p s.

(** [needle in hay] *)
Fixpoint contains (hay needle : string) : bool :=
  String.prefix needle hay ||
  match hay with
  | EmptyString => false
  | String _ hay' => contains hay' needle
  end.

(** [c.lower()] on one character; only A-Z have an ASCII lower case. *)
Definition lower_ascii (c : ascii) : ascii :=
  let n := nat_of_ascii c in
  if (Nat.leb 65 n && Nat.leb n 90)%bool then ascii_of_nat (n + 32) else c.

(** [s.lower()] *)
Fixpoint lower (s : string) : string :=
  match s with
  | EmptyString => EmptyString
  | String c s' => String (lower_ascii c) (lower s')
  end.

(** Truth value of an optional string: [None] and [''] are false. *)
Definition truthy (o : option string) : bool :=
  match o with
  | None => false
  | Some EmptyString => false
  | Some (String _ _) => true
  end.

End PyStr.

(** ** Exceptions *)

(** The exception classes this module can meet, all below [Exception]:
    the ones it names, the ones [subprocess.run] and the file calls
    raise, and the driver's. *)
Inductive exn_class :=
| Exception
| OSError
| FileNotFoundError
| PermissionError
| ValueError
| UnicodeDecodeError
| SubprocessError
| TimeoutExpired
| CalledProcessError
| WebDriverException
| SessionNotCreatedException.

#[global] Instance exn_class_eq_dec : EqDecision exn_class.
Proof. solve_decision. Defined.

(** Direct base class. *)
Definition base_class (c : exn_class) : option exn_class :=
  match c with
  | Exception => None
  | OSError => Some Exception
  | FileNotFoundError => Some OSError
  | PermissionError => Some OSError
  | ValueError => Some Exception
  | UnicodeDecodeError => Some ValueError
  | SubprocessError => Some Exception
  | TimeoutExpired => Some SubprocessError
  | CalledProcessError => Some SubprocessError
  | WebDriverException => Some Exception
  | SessionNotCreatedException => Some WebDriverException
  end.

(** [issubclass(c, d)]; the hierarchy above is three levels deep. *)
Fixpoint issubclass_upto (depth : nat) (c d : exn_class) : bool :=
  bool_decide (c = d) ||
  match depth, base_class c with
  | S depth', Some b => issubclass_upto depth' b d
  | _, _ => false
  end.

Definition issubclass : exn_class -> exn_class -> bool := issubclass_upto 3.

Record exn := Exn { exn_type : exn_class; exn_str : string }.

#[global] Instance exn_eq_dec : EqDecision exn.
Proof. solve_decision. Defined.

(** Does [except (c1, c2, ...)] take the exception? *)
Definition caught_by (classes : list exn_class) (e : exn) : bool :=
  existsb (issubclass (exn_type e)) classes.

Inductive outcome (A : Type) :=
| Return (a : A)
| Raise (e : exn).
Arguments Return {A} a.
Arguments Raise {A} e.

(** ** The host *)

Record file := File { content : string; mode : Z }.

Record ChromeOptions := Options {
  arguments : list string;
  binary_location : string
}.

Inductive WebDriver := Session (id : nat).

Record CompletedProcess := Completed { returncode : Z; stdout : string }.

Inductive level := INFO | WARNING | ERROR.

(** One entry per call that leaves the module. *)
Inductive event :=
| ev_exists (path : string)
| ev_system
| ev_which (cmd : string)
| ev_run (argv : list string) (timeout : Z)
| ev_log (lvl : level) (msg : string)
| ev_tempfile (suffix : string)
| ev_write (path text : string)
| ev_chmod (path : string) (bits : Z)
| ev_unlink (path : string)
| ev_chrome (options : ChromeOptions) (browser_executable_path : option string).

#[global] Instance level_eq_dec : EqDecision level.
Proof. solve_decision. Defined.
#[global] Instance ChromeOptions_eq_dec : EqDecision ChromeOptions.
Proof. solve_decision. Defined.
#[global] Instance event_eq_dec : EqDecision event.
Proof. solve_decision. Defined.

(** What the host answers.  [tmp_stem] is the name [tempfile] picks,
    without the suffix; the [_fault] fields say whether the matching
    file call fails. *)
Record host := Host {
  system : string;
  which : string -> outcome (option string);
  run_process : list string -> outcome CompletedProcess;
  environ : gmap string string;
  Chrome : ChromeOptions -> option string -> outcome WebDriver;
  tmp_stem : outcome string;
  write_fault : option exn;
  chmod_fault : option exn;
  unlink_fault : option exn
}.

(** ** Computations *)

Record run (A : Type) := Run {
  result : outcome A;
  disk : gmap string file;
  trace : list event
}.
Arguments Run {A} result disk trace.
Arguments result {A} r.
Arguments disk {A} r.
Arguments trace {A} r.

Definition M (A : Type) : Type := gmap string file -> run A.

Definition ret {A} (a : A) : M A := fun d => Run (Return a) d [].

Definition raise {A} (e : exn) : M A := fun d => Run (Raise e) d [].

Definition bind {A B} (m : M A) (k : A -> M B) : M B := fun d =>
  match m d with
  | Run (Return a) d1 t1 =>
      match k a d1 with
      | Run r d2 t2 => Run r d2 (t1 ++ t2)
      end
  | Run (Raise e) d1 t1 => Run (Raise e) d1 t1
  end.

Notation "x <- m ;; k" := (bind m (fun x => k))
  (at level 100, m at next level, right associativity).
Notation "m ;;; k" := (bind m (fun _ => k))
  (at level 100, right associativity).

(** [try: m  except classes as e: h e] *)
Definition try_except {A} (m : M A) (classes : list exn_class)
    (h : exn -> M A) : M A := fun d =>
  match m d with
  | Run (Return a) d1 t1 => Run (Return a) d1 t1
  | Run (Raise e) d1 t1 =>
      if caught_by classes e then
        match h e d1 with
        | Run r d2 t2 => Run r d2 (t1 ++ t2)
        end
      else Run (Raise e) d1 t1
  end.

(** [try: x = m1; m2 x  except classes as e: h locals e], where the
    handler asks whether [x] was bound when the exception came. *)
Definition try_bind_except {A B} (m1 : M A) (m2 : A -> M B)
    (classes : list exn_class) (h : option A -> exn -> M B) : M B := fun d =>
  match m1 d with
  | Run (Raise e) d1 t1 =>
      if caught_by classes e then
        match h None e d1 with
        | Run r d2 t2 => Run r d2 (t1 ++ t2)
        end
      else Run (Raise e) d1 t1
  | Run (Return x) d1 t1 =>
      match m2 x d1 with
      | Run (Return b) d2 t2 => Run (Return b) d2 (t1 ++ t2)
      | Run (Raise e) d2 t2 =>
          if caught_by classes e then
            match h (Some x) e d2 with
            | Run r d3 t3 => Run r d3 (t1 ++ t2 ++ t3)
            end
          else Run (Raise e) d2 (t1 ++ t2)
      end
  end.

(** [try: m  except: pass] *)
Definition try_pass (m : M unit) : M unit := fun d =>
  match m d with
  | Run (Return a) d1 t1 => Run (Return a) d1 t1
  | Run (Raise _) d1 t1 => Run (Return tt) d1 t1
  end.

(** ** Calls into the host *)

Section Calls.

Variable h : host.

Definition os_path_exists (path : string) : M bool := fun d =>
  Run (Return (bool_decide (is_Some (d !! path)))) d [ev_exists path].

Definition platform_system : M string := fun d =>
  Run (Return (system h)) d [ev_system].

Definition shutil_which (cmd : string) : M (option string) := fun d =>
  Run (which h cmd) d [ev_which cmd].

Definition subprocess_run (argv : list string) (timeout : Z)
    : M CompletedProcess := fun d =>
  Run (run_process h argv) d [ev_run argv timeout].

Definition logger (lvl : level) (msg : string) : M unit := fun d =>
  Run (Return tt) d [ev_log lvl msg].

Definition uc_Chrome (options : ChromeOptions)
    (browser_executable_path : option string) : M WebDriver := fun d =>
  Run (Chrome h options browser_executable_path) d
      [ev_chrome options browser_executable_path].

(** [tempfile.NamedTemporaryFile(mode='w', suffix=..., delete=False)]:
    a new empty file, readable and writable by its owner only. *)
Definition NamedTemporaryFile (suffix : string) : M string := fun d =>
  match tmp_stem h with
  | Raise e => Run (Raise e) d [ev_tempfile suffix]
  | Return stem =>
      let name := stem +:+ suffix in
      Run (Return name) (<[name := File "" 384]> d) [ev_tempfile suffix]
  end.

Definition file_write (path text : string) : M unit := fun d =>
  match write_fault h with
  | Some e => Run (Raise e) d [ev_write path text]
  | None =>
      Run (Return tt) (alter (fun f => File text (mode f)) path d)
          [ev_write path text]
  end.

Definition os_chmod (path : string) (bits : Z) : M unit := fun d =>
  match chmod_fault h with
  | Some e => Run (Raise e) d [ev_chmod path bits]
  | None =>
      match d !! path with
      | None => Run (Raise (Exn FileNotFoundError path)) d [ev_chmod path bits]
      | Some f =>
          Run (Return tt) (<[path := File (content f) bits]> d)
              [ev_chmod path bits]
      end
  end.

Definition os_unlink (path : string) : M unit := fun d =>
  match unlink_fault h with
  | Some e => Run (Raise e) d [ev_unlink path]
  | None =>
      match d !! path with
      | None => Run (Raise (Exn FileNotFoundError path)) d [ev_unlink path]
      | Some _ => Run (Return tt) (delete path d) [ev_unlink path]
      end
  end.

End Calls.

(** ** find_chrome *)

Definition possiblePaths : list string :=
  [ "C:\Program Files\Google\Chrome\Application\chrome.exe";
    "C:\Program Files (x86)\Google\Chrome\Application\chrome.exe";
    "C:\ProgramData\chocolatey\bin\chrome.exe";
    "C:\Users\%USERNAME%\AppData\Local\Google\Chrome\Application\chrome.exe";
    "/usr/bin/google-chrome";
    "/usr/local/bin/google-chrome";
    "/opt/google/chrome/chrome";
    "/snap/bin/chromium";
    "/Applications/Google Chrome.app/Contents/MacOS/Google Chrome" ].

Definition flatpak_chrome_apps : list string :=
  [ "com.google.Chrome"; "org.chromium.Chromium" ].

Section Locator.

Variable h : host.

(** Each part of [find_chrome] answers [Some r] when the function
    returns [r] from there, and [None] when control falls through. *)

(** [for path in possiblePaths: if os.path.exists(path): return path] *)
Fixpoint scan_paths (paths : list string) : M (option string) :=
  match paths with
  | [] => ret None
  | path :: rest =>
      found <- os_path_exists path ;;
      if found then ret (Some path) else scan_paths rest
  end.

(** [for app_id in flatpak_chrome_apps: if app_id in installed_apps: ...] *)
Fixpoint scan_apps (installed_apps : string) (apps : list string)
    : M (option string) :=
  match apps with
  | [] => ret None
  | app_id :: rest =>
      if PyStr.contains installed_apps app_id then
        logger INFO ("Found Flatpak Chrome installation: " +:+ app_id) ;;;
        ret (Some ("flatpak run " +:+ app_id))
      else scan_apps installed_apps rest
  end.

Definition flatpak_step : M (option string) :=
  sys <- platform_system h ;;
  if String.eqb sys "Linux" then
    flatpak <- shutil_which h "flatpak" ;;
    if PyStr.truthy flatpak then
      try_except
        (result <- subprocess_run h ["flatpak"; "list"; "--app"] 10 ;;
         if returncode result =? 0 then
           scan_apps (stdout result) flatpak_chrome_apps
         else ret None)
        [TimeoutExpired; SubprocessError]
        (fun e =>
           logger WARNING
             ("Error checking Flatpak installations: " +:+ exn_str e) ;;;
           ret None)
    else ret None
  else ret None.

Definition path_step : M (option string) :=
  try_except
    (sys <- platform_system h ;;
     chrome_path <-
       (if String.eqb sys "Windows" then shutil_which h "chrome"
        else
          google <- shutil_which h "google-chrome" ;;
          if PyStr.truthy google then ret google
          else shutil_which h "chromium") ;;
     if PyStr.truthy chrome_path then ret chrome_path else ret None)
    [Exception]
    (fun e =>
       logger ERROR
         ("Error while searching system paths for Chrome: " +:+ exn_str e) ;;;
       ret None).

Definition find_chrome : M (option string) :=
  hit <- scan_paths possiblePaths ;;
  match hit with
  | Some path => ret (Some path)
  | None =>
      hit <- flatpak_step ;;
      match hit with
      | Some invocation => ret (Some invocation)
      | None => path_step
      end
  end.

End Locator.

(** ** get_options *)

(** [uc.ChromeOptions()]: no argument, no binary location. *)
Definition uc_ChromeOptions : ChromeOptions := Options [] "".

Definition add_argument (o : ChromeOptions) (argument : string)
    : ChromeOptions :=
  Options (arguments o ++ [argument]) (binary_location o).

Definition set_binary_location (o : ChromeOptions) (path : string)
    : ChromeOptions :=
  Options (arguments o) path.

(** [os.environ.get(key, default)] *)
Definition environ_get (env : gmap string string) (key default : string)
    : string :=
  match env !! key with
  | Some v => v
  | None => default
  end.

Definition get_options (env : gmap string string) : ChromeOptions :=
  let chrome_options := uc_ChromeOptions in
  let chrome_options := add_argument chrome_options "--start-maximised" in
  let chrome_options := add_argument chrome_options "--disable-extensions" in
  let chrome_options := add_argument chrome_options "--disable-gpu" in
  let chrome_options := add_argument chrome_options "--no-sandbox" in
  if String.eqb (PyStr.lower (environ_get env "HEADLESS" "false")) "true"
  then add_argument chrome_options "--headless=new"
  else chrome_options.

(** ** create_flatpak_wrapper_script *)

Definition wrapper_content (flatpak_command : string) : string :=
  "#!/bin/bash" +:+ PyStr.newline +:+
  "exec " +:+ flatpak_command +:+ " " +:+
  PyStr.dquote +:+ "$@" +:+ PyStr.dquote +:+ PyStr.newline.

(** [0o755] *)
Definition mode_755 : Z := 7 * 64 + 5 * 8 + 5.

Section Bootstrapper.

Variable h : host.

Definition create_flatpak_wrapper_script (flatpak_command : string)
    : M string :=
  wrapper_path <- NamedTemporaryFile h ".sh" ;;
  file_write h wrapper_path (wrapper_content flatpak_command) ;;;
  os_chmod h wrapper_path mode_755 ;;;
  logger INFO ("Created Flatpak wrapper script at: " +:+ wrapper_path) ;;;
  ret wrapper_path.

(** ** create_driver *)

Definition terminal_message : string :=
  "[ChromeDriver] Failed to install ChromeDriver. A current version of Chrome was not detected on your system."
  +:+ PyStr.newline +:+
  "If you know that Chrome is installed (including Flatpak versions), update Chrome to the latest version. "
  +:+
  "If the script is still not working, set the path to your Chrome executable manually inside the script."
  +:+ PyStr.newline +:+
  "For Flatpak Chrome, ensure you have either 'com.google.Chrome' or 'org.chromium.Chromium' installed.".

Definition terminal_error : exn := Exn Exception terminal_message.

(** The parts of the fallback answer [Some driver] when [create_driver]
    returns the driver from there, and [None] when control reaches the
    final [raise]. *)

(** The branch for a Flatpak invocation string. *)
Definition flatpak_attempt (chrome_path : string)
    (chrome_options : ChromeOptions) : M (option WebDriver) :=
  try_bind_except
    (create_flatpak_wrapper_script chrome_path)
    (fun wrapper_script =>
       let chrome_options :=
         set_binary_location chrome_options wrapper_script in
       let chrome_options :=
         add_argument chrome_options "--disable-dev-shm-usage" in
       let chrome_options :=
         add_argument chrome_options "--disable-setuid-sandbox" in
       driver <- uc_Chrome h chrome_options (Some wrapper_script) ;;
       logger INFO
         ("ChromeDriver started using Flatpak Chrome: " +:+ chrome_path) ;;;
       ret (Some driver))
    [Exception]
    (fun wrapper_script e =>
       logger ERROR
         ("ChromeDriver failed using Flatpak Chrome " +:+ chrome_path
          +:+ ": " +:+ exn_str e) ;;;
       match wrapper_script with
       | Some wrapper_script =>
           present <- os_path_exists wrapper_script ;;
           if present then try_pass (os_unlink h wrapper_script)
           else ret tt
       | None => ret tt
       end ;;;
       ret None).

(** The branch for a plain executable path. *)
Definition direct_attempt (chrome_path : string)
    (chrome_options : ChromeOptions) : M (option WebDriver) :=
  let chrome_options := set_binary_location chrome_options chrome_path in
  try_except
    (driver <- uc_Chrome h chrome_options (Some chrome_path) ;;
     logger INFO
       ("ChromeDriver started using browser_executable_path: "
        +:+ chrome_path) ;;;
     ret (Some driver))
    [Exception]
    (fun e =>
       logger ERROR
         ("ChromeDriver failed using path " +:+ chrome_path +:+ ": "
          +:+ exn_str e) ;;;
       ret None).

Definition fallback : M WebDriver :=
  logger WARNING
    "Default ChromeDriver creation failed. Trying alternative paths..." ;;;
  chrome_path <- find_chrome h ;;
  started <-
    (if PyStr.truthy chrome_path then
       let path := default "" chrome_path in
       let chrome_options := get_options (environ h) in
       if PyStr.startswith path "flatpak run"
       then flatpak_attempt path chrome_options
       else direct_attempt path chrome_options
     else
       logger ERROR
         "No Chrome executable found in known paths or Flatpak installations." ;;;
       ret None) ;;
  match started with
  | Some driver => ret driver
  | None => raise terminal_error
  end.

Definition create_driver : M WebDriver :=
  try_except
    (let chrome_options := get_options (environ h) in
     driver <- uc_Chrome h chrome_options None ;;
     logger INFO "ChromeDriver installed and browser started." ;;;
     ret driver)
    [Exception]
    (fun _ => fallback).

End Bootstrapper.

(** ** Vocabulary of the statements *)

(** Chrome's command-line switch that opens the window maximized, as
    Chrome itself spells it. *)
Definition chrome_start_maximized : string := "--start-maximized".

(** The upper-case partner of a lower-case ASCII letter. *)
Definition upper_ascii (c : ascii) : ascii :=
  let n := nat_of_ascii c in
  if (Nat.leb 97 n && Nat.leb n 122)%bool then ascii_of_nat (n - 32) else c.

(** Every way to write a lower-case word when the case of letters is
    ignored. *)
Fixpoint spellings (word : string) : list string :=
  match word with
  | EmptyString => [EmptyString]
  | String c rest =>
      let tails := spellings rest in
      (String c <$> tails) ++ (String (upper_ascii c) <$> tails)
  end.

(** The calls by which the module looks at its host; the others change
    the disk or start a browser. *)
Definition is_probe (e : event) : bool :=
  match e with
  | ev_exists _ | ev_system | ev_which _ | ev_run _ _ | ev_log _ _ => true
  | ev_tempfile _ | ev_write _ _ | ev_chmod _ _ | ev_unlink _
  | ev_chrome _ _ => false
  end.

(** The calls that try to start a browser. *)
Definition is_construction (e : event) : bool :=
  match e with
  | ev_chrome _ _ => true
  | _ => false
  end.

(** Where Chrome lives in the Windows profile of [user]. *)
Definition profile_chrome (user : string) : string :=
  "C:\Users\" +:+ user +:+
  "\AppData\Local\Google\Chrome\Application\chrome.exe".

(** The host [h], except that the child process prints [out]. *)
Definition with_stdout (h : host) (out : string) : host :=
  Host (system h) (which h)
       (fun argv =>
          match run_process h argv with
          | Return cp => Return (Completed (returncode cp) out)
          | Raise e => Raise e
          end)
       (environ h) (Chrome h) (tmp_stem h)
       (write_fault h) (chmod_fault h) (unlink_fault h).

(** ** Sample hosts *)

Module Sample.

(** A PATH on which exactly the listed commands resolve. *)
Fixpoint on_path (table : list (string * string)) (cmd : string)
    : outcome (option string) :=
  match table with
  | [] => Return None
  | (name, path) :: rest =>
      if String.eqb name cmd then Return (Some path) else on_path rest cmd
  end.

Definition no_default_driver (options : ChromeOptions)
    (browser_executable_path : option string) : outcome WebDriver :=
  match browser_executable_path with
  | None =>
      Raise (Exn SessionNotCreatedException "session not created")
  | Some _ => Return (Session 1)
  end.

Definition no_driver (options : ChromeOptions)
    (browser_executable_path : option string) : outcome WebDriver :=
  Raise (Exn SessionNotCreatedException "session not created").

(** Linux, [flatpak] installed but no Chrome in it, [google-chrome]
    on PATH. *)
Definition linux_path : host := {|
  system := "Linux";
  which := on_path [("flatpak", "/usr/bin/flatpak");
                    ("google-chrome", "/usr/bin/google-chrome")];
  run_process := fun _ => Return (Completed 0 "org.mozilla.firefox");
  environ := ∅;
  Chrome := no_default_driver;
  tmp_stem := Return "/tmp/tmpk3x9";
  write_fault := None;
  chmod_fault := None;
  unlink_fault := None
|}.

(** Linux with Chrome installed from Flatpak; the driver starts only
    when given an executable. *)
Definition linux_flatpak : host := {|
  system := "Linux";
  which := on_path [("flatpak", "/usr/bin/flatpak")];
  run_process := fun _ =>
    Return (Completed 0 "Google Chrome  com.google.Chrome  stable");
  environ := {[ "HEADLESS" := "True" ]};
  Chrome := no_default_driver;
  tmp_stem := Return "/tmp/tmpk3x9";
  write_fault := None;
  chmod_fault := None;
  unlink_fault := None
|}.

(** The same, but the driver never starts. *)
Definition linux_flatpak_broken : host := {|
  system := "Linux";
  which := on_path [("flatpak", "/usr/bin/flatpak")];
  run_process := fun _ =>
    Return (Completed 0 "Google Chrome  com.google.Chrome  stable");
  environ := {[ "HEADLESS" := "True" ]};
  Chrome := no_driver;
  tmp_stem := Return "/tmp/tmpk3x9";
  write_fault := None;
  chmod_fault := None;
  unlink_fault := None
|}.

(** Linux where [flatpak] is found on PATH but cannot be executed:
    [subprocess.run] raises [PermissionError], an [OSError]. *)
Definition linux_spawn_fails : host := {|
  system := "Linux";
  which := on_path [("flatpak", "/usr/local/bin/flatpak");
                    ("google-chrome", "/opt/chrome/google-chrome")];
  run_process := fun _ =>
    Raise (Exn PermissionError
             "[Errno 13] Permission denied: 'flatpak'");
  environ := ∅;
  Chrome := no_default_driver;
  tmp_stem := Return "/tmp/tmpk3x9";
  write_fault := None;
  chmod_fault := None;
  unlink_fault := None
|}.

(** Linux where [flatpak list --app] exits with status 1 although it
    printed a Chrome line. *)
Definition linux_listing_fails : host := {|
  system := "Linux";
  which := on_path [("flatpak", "/usr/bin/flatpak");
                    ("chromium", "/usr/bin/chromium")];
  run_process := fun _ =>
    Return (Completed 1 "Google Chrome  com.google.Chrome  stable");
  environ := ∅;
  Chrome := no_default_driver;
  tmp_stem := Return "/tmp/tmpk3x9";
  write_fault := None;
  chmod_fault := None;
  unlink_fault := None
|}.

(** Linux where the listing does not come back within its ten seconds. *)
Definition linux_timeout : host := {|
  system := "Linux";
  which := on_path [("flatpak", "/usr/bin/flatpak");
                    ("chromium", "/usr/bin/chromium")];
  run_process := fun _ =>
    Raise (Exn TimeoutExpired
             "Command '['flatpak', 'list', '--app']' timed out after 10 seconds");
  environ := ∅;
  Chrome := no_default_driver;
  tmp_stem := Return "/tmp/tmpk3x9";
  write_fault := None;
  chmod_fault := None;
  unlink_fault := None
|}.

(** Linux whose Flatpak holds the Dev channel of Chrome and no other. *)
Definition linux_flatpak_dev : host := {|
  system := "Linux";
  which := on_path [("flatpak", "/usr/bin/flatpak")];
  run_process := fun _ =>
    Return (Completed 0 "Google Chrome (unstable)  com.google.ChromeDev  dev");
  environ := ∅;
  Chrome := no_default_driver;
  tmp_stem := Return "/tmp/tmpk3x9";
  write_fault := None;
  chmod_fault := None;
  unlink_fault := None
|}.

(** Linux with Chrome from Flatpak, where the script cannot be made
    executable. *)
Definition linux_flatpak_chmod_fails : host := {|
  system := "Linux";
  which := on_path [("flatpak", "/usr/bin/flatpak")];
  run_process := fun _ =>
    Return (Completed 0 "Google Chrome  com.google.Chrome  stable");
  environ := ∅;
  Chrome := no_default_driver;
  tmp_stem := Return "/tmp/tmpk3x9";
  write_fault := None;
  chmod_fault :=
    Some (Exn PermissionError "[Errno 1] Operation not permitted");
  unlink_fault := None
|}.

(** Windows with no browser anywhere. *)
Definition windows_bare : host := {|
  system := "Windows";
  which := on_path [];
  run_process := fun _ => Raise (Exn FileNotFoundError "flatpak");
  environ := ∅;
  Chrome := no_driver;
  tmp_stem := Return "C:\Temp\tmpk3x9";
  write_fault := None;
  chmod_fault := None;
  unlink_fault := None
|}.

(** A host on which the driver starts at the first attempt. *)
Definition driver_ready : host := {|
  system := "Linux";
  which := on_path [("flatpak", "/usr/bin/flatpak")];
  run_process := fun _ =>
    Return (Completed 0 "Google Chrome  com.google.Chrome  stable");
  environ := {[ "HEADLESS" := "true" ]};
  Chrome := fun _ _ => Return (Session 7);
  tmp_stem := Return "/tmp/tmpk3x9";
  write_fault := None;
  chmod_fault := None;
  unlink_fault := None
|}.

(** macOS on which every PATH lookup fails. *)
Definition mac_path_error : host := {|
  system := "Darwin";
  which := fun _ => Raise (Exn ValueError "embedded null byte");
  run_process := fun _ => Raise (Exn FileNotFoundError "flatpak");
  environ := ∅;
  Chrome := no_default_driver;
  tmp_stem := Return "/tmp/tmpk3x9";
  write_fault := None;
  chmod_fault := None;
  unlink_fault := None
|}.

(** A disk with two of the candidates installed. *)
Definition two_browsers : gmap string file :=
  {[ "/snap/bin/chromium" := File "ELF" 493;
     "/usr/bin/google-chrome" := File "ELF" 493 ]}.

(** A Windows disk with Chrome in the profile of user alice only. *)
Definition alice_disk : gmap string file :=
  {[ profile_chrome "alice" := File "MZ" 493 ]}.

End Sample.

(** * Properties *)

#[local] Arguments PyStr.truthy : simpl never.
#[local] Arguments PyStr.contains : simpl never.
#[local] Arguments PyStr.startswith : simpl never.
#[local] Arguments caught_by : simpl never.
#[local] Arguments String.eqb : simpl never.
#[local] Arguments Z.eqb : simpl never.
#[local] Arguments get_options : simpl never.
#[local] Arguments flatpak_step : simpl never.
#[local] Arguments path_step : simpl never.
#[local] Arguments find_chrome : simpl never.
#[local] Arguments create_flatpak_wrapper_script : simpl never.
#[local] Arguments flatpak_attempt : simpl never.
#[local] Arguments direct_attempt : simpl never.
#[local] Arguments fallback : simpl never.

(** Case analysis on whatever the computation inspects next. *)
Ltac case_step :=
  match goal with
  | |- context [match ?x with _ => _ end] =>
      lazymatch x with
      | context [match _ with _ => _ end] => fail
      | _ => destruct x eqn:?
      end
  | H : context [match ?x with _ => _ end] |- _ =>
      lazymatch x with
      | context [match _ with _ => _ end] => fail
      | _ => destruct x eqn:?
      end
  end.

Ltac run_cases := cbn in *; repeat (case_step; cbn in *; simplify_eq).

(** Membership in an explicit list of events, case by case. *)
Ltac in_trace H :=
  repeat first
    [ apply elem_of_nil in H; destruct H
    | apply elem_of_cons in H; destruct H as [H|H]; [try discriminate H|]
    | apply elem_of_app in H; destruct H as [H|H] ].

Ltac unfold_calls :=
  unfold bind, try_except, try_pass, platform_system, shutil_which,
    subprocess_run, os_path_exists, logger, uc_Chrome, ret, raise.

(** ** Exceptions *)

Lemma caught_by_Exception e : caught_by [Exception] e = true.
Proof. by destruct e as [[] ?]. Qed.

Lemma OSError_not_SubprocessError e :
  issubclass (exn_type e) OSError = true →
  caught_by [TimeoutExpired; SubprocessError] e = false.
Proof. by destruct e as [[] ?]. Qed.

(** ** The candidate scan *)

Lemma is_Some_exists (d : gmap string file) path :
  is_Some (d !! path) → bool_decide (is_Some (d !! path)) = true.
Proof. apply bool_decide_eq_true_2. Qed.

Lemma scan_paths_none paths (d : gmap string file) :
  (∀ q, q ∈ paths → d !! q = None) →
  scan_paths paths d = Run (Return None) d (ev_exists <$> paths).
Proof.
  induction paths as [|p paths IH]; intros Hnone; [done|].
  cbn [scan_paths]. unfold bind, os_path_exists. cbn.
  rewrite (Hnone p) by apply list_elem_of_here.
  rewrite bool_decide_eq_false_2 by (by intros [? ?]).
  rewrite IH; [done|]. intros q Hq. apply Hnone. by apply list_elem_of_further.
Qed.

Lemma scan_paths_hit before p after (d : gmap string file) :
  (∀ q, q ∈ before → d !! q = None) →
  is_Some (d !! p) →
  scan_paths (before ++ p :: after) d
  = Run (Return (Some p)) d (ev_exists <$> (before ++ [p])).
Proof.
  intros Hnone Hp. induction before as [|q before IH]; cbn [scan_paths app].
  - unfold bind, os_path_exists. cbn. by rewrite is_Some_exists.
  - unfold bind, os_path_exists. cbn.
    rewrite (Hnone q) by apply list_elem_of_here.
    rewrite bool_decide_eq_false_2 by (by intros [? ?]).
    rewrite IH; [done|]. intros q' Hq'. apply Hnone.
    by apply list_elem_of_further.
Qed.

Lemma first_existing paths (d : gmap string file) :
  (∃ p, p ∈ paths ∧ is_Some (d !! p)) →
  ∃ before p after,
    paths = before ++ p :: after ∧
    (∀ q, q ∈ before → d !! q = None) ∧ is_Some (d !! p).
Proof.
  induction paths as [|q paths IH]; intros (p & Hin & Hp).
  { by apply elem_of_nil in Hin. }
  destruct (d !! q) as [f|] eqn:Hq.
  - exists [], q, paths. split; [done|]. split.
    + intros q' Hq'. by apply elem_of_nil in Hq'.
    + by rewrite Hq.
  - destruct IH as (before & p' & after & -> & Hb & Hp').
    { exists p. split; [|done]. apply elem_of_cons in Hin as [->|]; [|done].
      rewrite Hq in Hp. by destruct Hp. }
    exists (q :: before), p', after. split; [done|]. split; [|done].
    intros q' [->|]%elem_of_cons; auto.
Qed.

(** ** The two later steps leave the disk alone *)

Lemma flatpak_step_disk h d : disk (flatpak_step h d) = d.
Proof. unfold flatpak_step, scan_apps. unfold_calls. by run_cases. Qed.

Lemma path_step_disk h d : disk (path_step h d) = d.
Proof. unfold path_step. unfold_calls. by run_cases. Qed.

(** With no candidate on disk, [find_chrome] is its second step
    followed, when that falls through, by its third. *)
Lemma find_chrome_no_candidate h (d : gmap string file) :
  (∀ q, q ∈ possiblePaths → d !! q = None) →
  find_chrome h d =
    let scan := ev_exists <$> possiblePaths in
    let r := flatpak_step h d in
    match result r with
    | Return (Some invocation) =>
        Run (Return (Some invocation)) d (scan ++ trace r)
    | Return None =>
        let r' := path_step h d in
        Run (result r') d (scan ++ trace r ++ trace r')
    | Raise e => Run (Raise e) d (scan ++ trace r)
    end.
Proof.
  intros Hnone. unfold find_chrome, bind.
  rewrite scan_paths_none by done. cbn [result disk trace].
  pose proof (flatpak_step_disk h d) as Hd1.
  pose proof (path_step_disk h d) as Hd2.
  destruct (flatpak_step h d) as [[[inv|]|e] d1 t1]; cbn in *; subst d1.
  - by rewrite app_nil_r.
  - destruct (path_step h d) as [r2 d2 t2]; cbn in *. by subst d2.
  - done.
Qed.

Lemma find_chrome_disk h d : disk (find_chrome h d) = d.
Proof.
  unfold find_chrome, bind.
  assert (Hscan : ∀ paths, disk (scan_paths paths d) = d).
  { induction paths as [|p paths IH]; [done|]. cbn [scan_paths].
    unfold bind, os_path_exists. cbn.
    destruct (bool_decide _); [done|].
    by destruct (scan_paths paths d). }
  specialize (Hscan possiblePaths).
  destruct (scan_paths possiblePaths d) as [[[p|]|e] d1 t1]; cbn in *;
    subst d1; try done.
  pose proof (flatpak_step_disk h d) as Hd1.
  pose proof (path_step_disk h d) as Hd2.
  destruct (flatpak_step h d) as [[[inv|]|e] d2 t2]; cbn in *; subst d2;
    try done.
  by destruct (path_step h d).
Qed.

(** What the Flatpak step can put on the trace. *)
Lemma flatpak_step_spawn h d argv t :
  ev_run argv t ∈ trace (flatpak_step h d) →
  argv = ["flatpak"; "list"; "--app"] ∧ t = 10 ∧
  system h = "Linux" ∧
  ∃ fp, which h "flatpak" = Return fp ∧ PyStr.truthy fp = true.
Proof.
  unfold flatpak_step, scan_apps. unfold_calls.
  run_cases; intros Hin; in_trace Hin; simplify_eq.
  all: repeat split; try done; [by apply String.eqb_eq|eauto].
Qed.

Lemma flatpak_step_which h d cmd :
  ev_which cmd ∈ trace (flatpak_step h d) → cmd = "flatpak".
Proof.
  unfold flatpak_step, scan_apps. unfold_calls.
  run_cases; intros Hin; in_trace Hin; by simplify_eq.
Qed.

Lemma path_step_no_spawn h d argv t : ev_run argv t ∉ trace (path_step h d).
Proof.
  unfold path_step. unfold_calls.
  run_cases; intros Hin; in_trace Hin.
Qed.

Lemma path_step_no_warning h d msg :
  ev_log WARNING msg ∉ trace (path_step h d).
Proof.
  unfold path_step. unfold_calls.
  run_cases; intros Hin; in_trace Hin.
Qed.

(** The third step absorbs whatever its lookups raise. *)
Lemma path_step_returns h d : ∃ r, result (path_step h d) = Return r.
Proof.
  unfold path_step. unfold_calls.
  run_cases; eauto.
  all: match goal with
       | H : caught_by [Exception] ?e = false |- _ =>
           by rewrite caught_by_Exception in H
       end.
Qed.

(** What the third step answers, lookup by lookup. *)
Lemma path_step_windows h d r :
  system h = "Windows" →
  which h "chrome" = Return r →
  path_step h d
  = Run (Return (if PyStr.truthy r then r else None)) d
        [ev_system; ev_which "chrome"].
Proof.
  intros Hsys%String.eqb_eq Hwhich. unfold path_step. unfold_calls. cbn.
  rewrite Hsys. cbn. rewrite Hwhich. cbn.
  by destruct (PyStr.truthy r).
Qed.

Lemma path_step_google h d g :
  system h ≠ "Windows" →
  which h "google-chrome" = Return g →
  PyStr.truthy g = true →
  path_step h d = Run (Return g) d [ev_system; ev_which "google-chrome"].
Proof.
  intros Hsys%String.eqb_neq Hwhich Hg. unfold path_step. unfold_calls. cbn.
  rewrite Hsys. cbn. rewrite Hwhich. cbn. rewrite Hg. cbn. by rewrite Hg.
Qed.

Lemma path_step_chromium h d g c :
  system h ≠ "Windows" →
  which h "google-chrome" = Return g →
  PyStr.truthy g = false →
  which h "chromium" = Return c →
  path_step h d
  = Run (Return (if PyStr.truthy c then c else None)) d
        [ev_system; ev_which "google-chrome"; ev_which "chromium"].
Proof.
  intros Hsys%String.eqb_neq Hwhich Hg Hc. unfold path_step. unfold_calls.
  cbn. rewrite Hsys. cbn. rewrite Hwhich. cbn. rewrite Hg. cbn.
  rewrite Hc. cbn. by destruct (PyStr.truthy c).
Qed.

(** A listing that succeeds and names neither application. *)
Lemma flatpak_step_no_match h d fp out :
  system h = "Linux" →
  which h "flatpak" = Return fp →
  PyStr.truthy fp = true →
  run_process h ["flatpak"; "list"; "--app"] = Return (Completed 0 out) →
  PyStr.contains out "com.google.Chrome" = false →
  PyStr.contains out "org.chromium.Chromium" = false →
  flatpak_step h d
  = Run (Return None) d
        [ev_system; ev_which "flatpak";
         ev_run ["flatpak"; "list"; "--app"] 10].
Proof.
  intros Hsys%String.eqb_eq Hwhich Hfp Hrun Hno1 Hno2.
  unfold flatpak_step, scan_apps. unfold_calls. cbn.
  rewrite Hsys. cbn. rewrite Hwhich. cbn. rewrite Hfp. cbn.
  rewrite Hrun. cbn. by rewrite Hno1, Hno2.
Qed.

Lemma flatpak_step_nonzero h d fp cp :
  system h = "Linux" →
  which h "flatpak" = Return fp →
  PyStr.truthy fp = true →
  run_process h ["flatpak"; "list"; "--app"] = Return cp →
  returncode cp ≠ 0 →
  flatpak_step h d
  = Run (Return None) d
        [ev_system; ev_which "flatpak";
         ev_run ["flatpak"; "list"; "--app"] 10].
Proof.
  intros Hsys%String.eqb_eq Hwhich Hfp Hrun Hrc%Z.eqb_neq.
  unfold flatpak_step, scan_apps. unfold_calls. cbn.
  rewrite Hsys. cbn. rewrite Hwhich. cbn. rewrite Hfp. cbn.
  rewrite Hrun. cbn. by rewrite Hrc.
Qed.

Lemma flatpak_step_starts h d :
  ∃ rest, trace (flatpak_step h d) = ev_system :: rest.
Proof.
  unfold flatpak_step, scan_apps. unfold_calls. run_cases; eauto.
Qed.

(** An exception the handler of the second step takes is logged as a
    warning, and the step falls through. *)
Lemma flatpak_step_handled h d fp e :
  system h = "Linux" →
  which h "flatpak" = Return fp →
  PyStr.truthy fp = true →
  run_process h ["flatpak"; "list"; "--app"] = Raise e →
  caught_by [TimeoutExpired; SubprocessError] e = true →
  flatpak_step h d
  = Run (Return None) d
        [ev_system; ev_which "flatpak";
         ev_run ["flatpak"; "list"; "--app"] 10;
         ev_log WARNING
           ("Error checking Flatpak installations: " +:+ exn_str e)].
Proof.
  intros Hsys%String.eqb_eq Hwhich Hfp Hrun Hcaught.
  unfold flatpak_step, scan_apps. unfold_calls. cbn.
  rewrite Hsys. cbn. rewrite Hwhich. cbn. rewrite Hfp. cbn.
  rewrite Hrun. cbn. by rewrite Hcaught.
Qed.

(** Any other exception of the child process leaves the step, and with
    it [find_chrome]. *)
Lemma flatpak_step_unhandled h d fp e :
  system h = "Linux" →
  which h "flatpak" = Return fp →
  PyStr.truthy fp = true →
  run_process h ["flatpak"; "list"; "--app"] = Raise e →
  caught_by [TimeoutExpired; SubprocessError] e = false →
  flatpak_step h d
  = Run (Raise e) d
        [ev_system; ev_which "flatpak";
         ev_run ["flatpak"; "list"; "--app"] 10].
Proof.
  intros Hsys%String.eqb_eq Hwhich Hfp Hrun Hcaught.
  unfold flatpak_step, scan_apps. unfold_calls. cbn.
  rewrite Hsys. cbn. rewrite Hwhich. cbn. rewrite Hfp. cbn.
  rewrite Hrun. cbn. by rewrite Hcaught.
Qed.

(** ** Strings *)

Lemma append_cons c s t : String c s +:+ t = String c (s +:+ t).
Proof. done. Qed.

Lemma length_append s t :
  String.length (s +:+ t) = (String.length s + String.length t)%nat.
Proof. induction s as [|c s IH]; [done|]. rewrite append_cons. cbn. by rewrite IH. Qed.

Lemma append_cancel_r s1 s2 t : s1 +:+ t = s2 +:+ t → s1 = s2.
Proof.
  revert s2. induction s1 as [|c s1 IH]; intros [|c2 s2] Heq; [done|..].
  - apply (f_equal String.length) in Heq.
    rewrite !length_append in Heq. cbn in Heq. lia.
  - apply (f_equal String.length) in Heq.
    rewrite !length_append in Heq. cbn in Heq. lia.
  - rewrite !append_cons in Heq. injection Heq as -> Heq. f_equal. by apply IH.
Qed.

Lemma profile_chrome_inj user1 user2 :
  profile_chrome user1 = profile_chrome user2 → user1 = user2.
Proof.
  unfold profile_chrome. rewrite !append_cons. intros Heq.
  injection Heq as Heq.
  change ("" +:+ ?s) with s in Heq. by apply append_cancel_r in Heq.
Qed.

Lemma profile_chrome_not_candidate user :
  user ≠ "%USERNAME%" → profile_chrome user ∉ possiblePaths.
Proof.
  intros Hne Hin. unfold possiblePaths in Hin.
  in_trace Hin.
  all: first
    [ apply Hne, (profile_chrome_inj user "%USERNAME%"); exact Hin
    | unfold profile_chrome in Hin; rewrite !append_cons in Hin;
      discriminate Hin ].
Qed.

(** ** The locator *)

(** C2: when some candidate path exists, [find_chrome] returns the first
    one that does, in list order, having only tested the candidates up
    to it: the Flatpak listing and the PATH lookup are not reached. *)
Theorem find_chrome_first_candidate h (d : gmap string file) :
  (∃ p, p ∈ possiblePaths ∧ is_Some (d !! p)) →
  ∃ before p after,
    possiblePaths = before ++ p :: after ∧
    (∀ q, q ∈ before → d !! q = None) ∧
    is_Some (d !! p) ∧
    result (find_chrome h d) = Return (Some p) ∧
    trace (find_chrome h d) = ev_exists <$> (before ++ [p]) ∧
    (∀ argv t, ev_run argv t ∉ trace (find_chrome h d)) ∧
    (∀ cmd, ev_which cmd ∉ trace (find_chrome h d)).
Proof.
  intros (before & p & after & Heq & Hb & Hp)%first_existing.
  exists before, p, after.
  assert (find_chrome h d
          = Run (Return (Some p)) d (ev_exists <$> (before ++ [p]))) as ->.
  { unfold find_chrome, bind. rewrite Heq, scan_paths_hit by done. cbn.
    by rewrite app_nil_r. }
  cbn. repeat split; try done.
  - intros argv t (q & Hq & _)%list_elem_of_fmap. discriminate Hq.
  - intros cmd (q & Hq & _)%list_elem_of_fmap. discriminate Hq.
Qed.

Lemma find_chrome_first_candidate_witness :
  ∃ before after,
    possiblePaths = before ++ "/usr/bin/google-chrome" :: after ∧
    result (find_chrome Sample.linux_path Sample.two_browsers)
    = Return (Some "/usr/bin/google-chrome").
Proof.
  destruct (find_chrome_first_candidate Sample.linux_path Sample.two_browsers)
    as (before & p & after & Heq & _ & _ & Hres & _).
  { exists "/snap/bin/chromium". split.
    - unfold possiblePaths. do 7 apply list_elem_of_further.
      apply list_elem_of_here.
    - eexists. vm_compute. reflexivity. }
  exists before, after.
  assert (p = "/usr/bin/google-chrome") as ->.
  { vm_compute in Hres. by injection Hres. }
  by split.
Defined.

(** C4: [find_chrome] spawns at most the one listing process
    [flatpak list --app] (timeout 10), and only when no candidate path
    exists, the platform is Linux and [flatpak] resolves on PATH; when the
    platform is not Linux, or [flatpak] is not on PATH, no process is
    spawned. *)
Theorem flatpak_listing_guard h (d : gmap string file) :
  (∀ q, q ∈ possiblePaths → d !! q = None) →
  (∀ argv t,
     ev_run argv t ∈ trace (find_chrome h d) →
     argv = ["flatpak"; "list"; "--app"] ∧ t = 10 ∧
     system h = "Linux" ∧
     ∃ fp, which h "flatpak" = Return fp ∧ PyStr.truthy fp = true) ∧
  (system h ≠ "Linux" ∨ which h "flatpak" = Return None →
   ∀ argv t, ev_run argv t ∉ trace (find_chrome h d)).
Proof.
  intros Hnone.
  assert (Hspawn : ∀ argv t,
     ev_run argv t ∈ trace (find_chrome h d) →
     argv = ["flatpak"; "list"; "--app"] ∧ t = 10 ∧
     system h = "Linux" ∧
     ∃ fp, which h "flatpak" = Return fp ∧ PyStr.truthy fp = true).
  { intros argv t. rewrite find_chrome_no_candidate by done. cbn zeta.
    intros Hin. apply (flatpak_step_spawn h d).
    destruct (result (flatpak_step h d)) as [[inv|]|e]; cbn [trace] in Hin.
    - apply elem_of_app in Hin as [(q & Hq & _)%list_elem_of_fmap|Hin];
        [discriminate Hq|done].
    - apply elem_of_app in Hin as [(q & Hq & _)%list_elem_of_fmap|Hin];
        [discriminate Hq|].
      apply elem_of_app in Hin as [Hin|Hin]; [done|].
      by apply path_step_no_spawn in Hin.
    - apply elem_of_app in Hin as [(q & Hq & _)%list_elem_of_fmap|Hin];
        [discriminate Hq|done]. }
  split; [exact Hspawn|].
  intros Habsent argv t Hin.
  destruct (Hspawn argv t Hin) as (_ & _ & Hsys & fp & Hwhich & Hfp).
  destruct Habsent as [Hne|Hno]; [done|].
  rewrite Hno in Hwhich. injection Hwhich as <-. discriminate Hfp.
Qed.

Lemma flatpak_listing_guard_witness :
  (∀ q, q ∈ possiblePaths → (∅ : gmap string file) !! q = None) ∧
  ev_run ["flatpak"; "list"; "--app"] 10
    ∈ trace (find_chrome Sample.linux_path ∅) ∧
  system Sample.linux_path = "Linux".
Proof.
  assert (Hnone : ∀ q, q ∈ possiblePaths → (∅ : gmap string file) !! q = None)
    by (intros q _; apply lookup_empty).
  assert (Hin : ev_run ["flatpak"; "list"; "--app"] 10
                  ∈ trace (find_chrome Sample.linux_path ∅)).
  { apply (bool_decide_unpack _). vm_compute. exact I. }
  split; [exact Hnone|]. split; [exact Hin|].
  destruct (flatpak_listing_guard Sample.linux_path ∅ Hnone) as [Hspawn _].
  exact (proj1 (proj2 (proj2 (Hspawn _ _ Hin)))).
Defined.

(** C5 (the code departs from it): on a host where [flatpak] resolves on
    PATH but cannot be executed, [subprocess.run] raises an [OSError];
    the handler of the Flatpak step names only [TimeoutExpired] and
    [SubprocessError], so nothing is logged, the PATH lookup is not
    reached, and [find_chrome] itself raises. *)
Theorem find_chrome_spawn_failure_escapes :
  caught_by [TimeoutExpired; SubprocessError]
    (Exn PermissionError "[Errno 13] Permission denied: 'flatpak'") = false ∧
  find_chrome Sample.linux_spawn_fails ∅
  = Run (Raise (Exn PermissionError "[Errno 13] Permission denied: 'flatpak'"))
        ∅
        ((ev_exists <$> possiblePaths) ++
         [ev_system; ev_which "flatpak";
          ev_run ["flatpak"; "list"; "--app"] 10]).
Proof. split; [done|]. by vm_compute. Qed.

(** C6: once the candidate scan and the Flatpak step have found nothing,
    [find_chrome] answers what the PATH lookup answers: on Windows it
    looks up [chrome]; elsewhere it looks up [google-chrome], and
    [chromium] only when [google-chrome] does not resolve.  So a PATH
    that resolves [google-chrome] to /usr/bin/google-chrome gives that
    path. *)
Theorem find_chrome_path_lookup h (d : gmap string file) :
  (∀ q, q ∈ possiblePaths → d !! q = None) →
  result (flatpak_step h d) = Return None →
  find_chrome h d
  = Run (result (path_step h d)) d
        ((ev_exists <$> possiblePaths) ++ trace (flatpak_step h d)
         ++ trace (path_step h d)) ∧
  (system h = "Windows" →
   ∀ r, which h "chrome" = Return r →
     path_step h d
     = Run (Return (if PyStr.truthy r then r else None)) d
           [ev_system; ev_which "chrome"]) ∧
  (system h ≠ "Windows" →
   ∀ g, which h "google-chrome" = Return g → PyStr.truthy g = true →
     path_step h d
     = Run (Return g) d [ev_system; ev_which "google-chrome"]) ∧
  (system h ≠ "Windows" →
   ∀ g c, which h "google-chrome" = Return g → PyStr.truthy g = false →
     which h "chromium" = Return c →
     path_step h d
     = Run (Return (if PyStr.truthy c then c else None)) d
           [ev_system; ev_which "google-chrome"; ev_which "chromium"]) ∧
  (system h ≠ "Windows" →
   which h "google-chrome" = Return (Some "/usr/bin/google-chrome") →
   result (find_chrome h d) = Return (Some "/usr/bin/google-chrome")).
Proof.
  intros Hnone Hfall.
  assert (Hfind : find_chrome h d
    = Run (result (path_step h d)) d
          ((ev_exists <$> possiblePaths) ++ trace (flatpak_step h d)
           ++ trace (path_step h d))).
  { rewrite find_chrome_no_candidate by done. cbn zeta. by rewrite Hfall. }
  split; [exact Hfind|].
  split; [intros; by apply path_step_windows|].
  split; [intros; by apply path_step_google|].
  split; [intros; by eapply path_step_chromium|].
  intros Hsys Hwhich. rewrite Hfind. cbn [result].
  by rewrite (path_step_google h d (Some "/usr/bin/google-chrome")).
Qed.

Lemma find_chrome_path_lookup_witness :
  (∀ q, q ∈ possiblePaths → (∅ : gmap string file) !! q = None) ∧
  result (flatpak_step Sample.linux_path ∅) = Return None ∧
  result (find_chrome Sample.linux_path ∅)
  = Return (Some "/usr/bin/google-chrome").
Proof.
  assert (Hnone : ∀ q, q ∈ possiblePaths → (∅ : gmap string file) !! q = None)
    by (intros q _; apply lookup_empty).
  assert (Hfall : result (flatpak_step Sample.linux_path ∅) = Return None)
    by (vm_compute; reflexivity).
  split; [exact Hnone|]. split; [exact Hfall|].
  destruct (find_chrome_path_lookup Sample.linux_path ∅ Hnone Hfall)
    as (_ & _ & _ & _ & Hscenario).
  apply Hscenario; [discriminate|reflexivity].
Defined.

(** C9: when the listing process ends within its time but with a
    non-zero status, the Flatpak step logs nothing and falls through to
    the PATH lookup, and what the process printed plays no part: any
    other output gives the same run. *)
Theorem flatpak_nonzero_exit_ignored h (d : gmap string file) fp cp :
  (∀ q, q ∈ possiblePaths → d !! q = None) →
  system h = "Linux" →
  which h "flatpak" = Return fp →
  PyStr.truthy fp = true →
  run_process h ["flatpak"; "list"; "--app"] = Return cp →
  returncode cp ≠ 0 →
  flatpak_step h d
  = Run (Return None) d
        [ev_system; ev_which "flatpak";
         ev_run ["flatpak"; "list"; "--app"] 10] ∧
  find_chrome h d
  = Run (result (path_step h d)) d
        ((ev_exists <$> possiblePaths) ++
         [ev_system; ev_which "flatpak";
          ev_run ["flatpak"; "list"; "--app"] 10] ++
         trace (path_step h d)) ∧
  (∀ msg, ev_log WARNING msg ∉ trace (find_chrome h d)) ∧
  (∀ out, find_chrome (with_stdout h out) d = find_chrome h d).
Proof.
  intros Hnone Hsys Hwhich Hfp Hrun Hrc.
  pose proof (flatpak_step_nonzero h d fp cp Hsys Hwhich Hfp Hrun Hrc)
    as Hstep.
  assert (Hfind : find_chrome h d
    = Run (result (path_step h d)) d
          ((ev_exists <$> possiblePaths) ++
           [ev_system; ev_which "flatpak";
            ev_run ["flatpak"; "list"; "--app"] 10] ++
           trace (path_step h d))).
  { rewrite find_chrome_no_candidate by done. cbn zeta. by rewrite Hstep. }
  split; [exact Hstep|]. split; [exact Hfind|]. split.
  - intros msg. rewrite Hfind. cbn [trace]. intros Hin.
    apply elem_of_app in Hin as [(q & Hq & _)%list_elem_of_fmap|Hin];
      [discriminate Hq|].
    apply elem_of_app in Hin as [Hin|Hin]; [in_trace Hin|].
    by apply path_step_no_warning in Hin.
  - intros out. rewrite Hfind.
    rewrite find_chrome_no_candidate by done. cbn zeta.
    rewrite (flatpak_step_nonzero (with_stdout h out) d fp
               (Completed (returncode cp) out)); try done.
    cbn. by rewrite Hrun.
Qed.

Lemma flatpak_nonzero_exit_ignored_witness :
  run_process Sample.linux_listing_fails ["flatpak"; "list"; "--app"]
  = Return (Completed 1 "Google Chrome  com.google.Chrome  stable") ∧
  PyStr.contains "Google Chrome  com.google.Chrome  stable"
    "com.google.Chrome" = true ∧
  result (find_chrome Sample.linux_listing_fails ∅)
  = Return (Some "/usr/bin/chromium") ∧
  (∀ msg, ev_log WARNING msg
            ∉ trace (find_chrome Sample.linux_listing_fails ∅)).
Proof.
  split; [reflexivity|]. split; [vm_compute; reflexivity|].
  destruct (flatpak_nonzero_exit_ignored Sample.linux_listing_fails ∅
              (Some "/usr/bin/flatpak")
              (Completed 1 "Google Chrome  com.google.Chrome  stable"))
    as (_ & Hfind & Hquiet & _).
  - intros q _. apply lookup_empty.
  - reflexivity.
  - reflexivity.
  - reflexivity.
  - reflexivity.
  - discriminate.
  - split; [|exact Hquiet]. rewrite Hfind. vm_compute. reflexivity.
Defined.

(** C10: the scan knows nothing of the platform: on every host with no
    candidate on disk it tests all nine paths, in list order, before it
    asks anything else.  The fourth candidate is the profile path of a
    user called, letter for letter, %USERNAME%; the Chrome of any other
    user is no candidate, and a disk that holds only that one is scanned
    to the end without a hit. *)
Theorem candidate_scan_unfiltered h (d : gmap string file) user f :
  (∀ q, q ∈ possiblePaths → d !! q = None) →
  user ≠ "%USERNAME%" →
  length possiblePaths = 9%nat ∧
  (∃ rest, trace (find_chrome h d)
           = (ev_exists <$> possiblePaths) ++ ev_system :: rest) ∧
  possiblePaths !! 3%nat = Some (profile_chrome "%USERNAME%") ∧
  PyStr.contains (profile_chrome "%USERNAME%") "%USERNAME%" = true ∧
  (profile_chrome user ∉ possiblePaths) ∧
  scan_paths possiblePaths {[ profile_chrome user := f ]}
  = Run (Return None) {[ profile_chrome user := f ]}
        (ev_exists <$> possiblePaths).
Proof.
  intros Hnone Huser.
  split; [done|]. split.
  { rewrite find_chrome_no_candidate by done. cbn zeta.
    destruct (flatpak_step_starts h d) as [rest Hrest].
    destruct (result (flatpak_step h d)) as [[inv|]|e]; cbn [trace];
      rewrite Hrest; eauto. }
  split; [done|]. split; [by vm_compute|].
  pose proof (profile_chrome_not_candidate user Huser) as Hnot.
  split; [exact Hnot|].
  apply scan_paths_none. intros q Hq.
  apply lookup_singleton_ne. intros Heq. apply Hnot. by rewrite Heq.
Qed.

Lemma candidate_scan_unfiltered_witness :
  (∀ q, q ∈ possiblePaths → (∅ : gmap string file) !! q = None) ∧
  "alice" ≠ "%USERNAME%" ∧
  result (scan_paths possiblePaths Sample.alice_disk) = Return None.
Proof.
  assert (Hnone : ∀ q, q ∈ possiblePaths → (∅ : gmap string file) !! q = None)
    by (intros q _; apply lookup_empty).
  assert (Huser : "alice" ≠ "%USERNAME%") by discriminate.
  split; [exact Hnone|]. split; [exact Huser|].
  destruct (candidate_scan_unfiltered Sample.linux_path ∅ "alice"
              (File "MZ" 493) Hnone Huser) as (_ & _ & _ & _ & _ & Hscan).
  unfold Sample.alice_disk. by rewrite Hscan.
Defined.

(** ** What [find_chrome] puts on the trace *)

Lemma scan_paths_trace paths (d : gmap string file) e :
  e ∈ trace (scan_paths paths d) → ∃ q, e = ev_exists q.
Proof.
  induction paths as [|p paths IH]; cbn [scan_paths].
  { intros Hin. by apply elem_of_nil in Hin. }
  unfold bind, os_path_exists. cbn.
  destruct (bool_decide _); cbn.
  - intros Hin. in_trace Hin. eauto.
  - destruct (scan_paths paths d) as [r d2 t2]; cbn in *.
    intros [->|Hin]%elem_of_cons; eauto.
Qed.

Lemma flatpak_step_probes h d e :
  e ∈ trace (flatpak_step h d) → is_probe e = true.
Proof.
  unfold flatpak_step, scan_apps. unfold_calls.
  run_cases; intros Hin; in_trace Hin; by subst e.
Qed.

Lemma path_step_probes h d e :
  e ∈ trace (path_step h d) → is_probe e = true.
Proof.
  unfold path_step. unfold_calls.
  run_cases; intros Hin; in_trace Hin; by subst e.
Qed.

(** The locator only looks: everything it does is a probe. *)
Lemma find_chrome_probes h d e :
  e ∈ trace (find_chrome h d) → is_probe e = true.
Proof.
  unfold find_chrome, bind. intros Hin.
  assert (Hscan : ∀ d0 e0, e0 ∈ trace (scan_paths possiblePaths d0) →
                           is_probe e0 = true).
  { intros d0 e0 [q ->]%scan_paths_trace. done. }
  specialize (Hscan d e).
  destruct (scan_paths possiblePaths d) as [[[hit|]|x] d1 t1]; cbn in *.
  - rewrite app_nil_r in Hin. auto.
  - pose proof (flatpak_step_probes h d1 e) as Hflat.
    destruct (flatpak_step h d1) as [[[inv|]|x] d2 t2]; cbn in *.
    + rewrite app_nil_r in Hin.
      apply elem_of_app in Hin as [Hin|Hin]; auto.
    + pose proof (path_step_probes h d2 e) as Hpath.
      destruct (path_step h d2) as [r3 d3 t3]; cbn in *.
      apply elem_of_app in Hin as [Hin|Hin]; [auto|].
      apply elem_of_app in Hin as [Hin|Hin]; auto.
    + apply elem_of_app in Hin as [Hin|Hin]; auto.
  - auto.
Qed.

Lemma find_chrome_no_chrome h d o p : ev_chrome o p ∉ trace (find_chrome h d).
Proof. intros Hin%find_chrome_probes. discriminate Hin. Qed.

Lemma find_chrome_no_unlink h d p : ev_unlink p ∉ trace (find_chrome h d).
Proof. intros Hin%find_chrome_probes. discriminate Hin. Qed.

(** [find_chrome] answers [None] or a string that is not empty. *)
Lemma startswith_truthy invocation :
  PyStr.startswith invocation "flatpak run" = true →
  PyStr.truthy (Some invocation) = true.
Proof. by destruct invocation. Qed.

(** ** get_options *)

Lemma lower_ascii_inv c l :
  PyStr.lower_ascii c = l → c = l ∨ c = upper_ascii l.
Proof.
  intros <-.
  destruct c as [[] [] [] [] [] [] [] []]; vm_compute; auto.
Qed.

(** [s.lower() == "true"] holds exactly for the sixteen spellings of
    the word. *)
Lemma lower_true s : PyStr.lower s = "true" ↔ s ∈ spellings "true".
Proof.
  split.
  - destruct s as [|c1 [|c2 [|c3 [|c4 [|c5 s]]]]]; cbn [PyStr.lower];
      intros Heq; try discriminate Heq.
    injection Heq as H1 H2 H3 H4.
    apply lower_ascii_inv in H1 as [->| ->], H2 as [->| ->],
      H3 as [->| ->], H4 as [->| ->];
      apply (bool_decide_unpack _); vm_compute; exact I.
  - intros Hin.
    let l := eval vm_compute in (spellings "true") in
      change (spellings "true") with l in Hin.
    in_trace Hin; by subst s.
Qed.

Lemma get_options_arguments_eq env :
  arguments (get_options env)
  = ["--start-maximised"; "--disable-extensions"; "--disable-gpu";
     "--no-sandbox"] ++
    (if String.eqb (PyStr.lower (environ_get env "HEADLESS" "false")) "true"
     then ["--headless=new"] else []).
Proof. unfold get_options. by destruct (String.eqb _ _). Qed.

Lemma get_options_binary_location env : binary_location (get_options env) = "".
Proof. unfold get_options. by destruct (String.eqb _ _). Qed.

(** X13: the headless option is among the arguments of [get_options]
    exactly when the environment sets HEADLESS to one of the sixteen
    spellings of the word true (any mix of upper and lower case); unset,
    empty or any other value leaves it out. *)
Lemma get_options_headless env :
  "--headless=new" ∈ arguments (get_options env) ↔
  ∃ v, env !! "HEADLESS" = Some v ∧ v ∈ spellings "true".
Proof.
  rewrite get_options_arguments_eq. unfold environ_get.
  destruct (String.eqb _ _) eqn:Heq.
  - apply String.eqb_eq in Heq. split.
    + intros _. destruct (env !! "HEADLESS") as [v|].
      * exists v. split; [done|]. by apply lower_true.
      * discriminate Heq.
    + intros _. cbn. do 4 apply list_elem_of_further. apply list_elem_of_here.
  - apply String.eqb_neq in Heq. split.
    + cbn. intros Hin. in_trace Hin.
    + intros (v & Hv & Hin). rewrite Hv in Heq.
      by apply lower_true in Hin.
Qed.

(** C3 (the code departs from it): whatever the environment, the
    options are the four fixed arguments, then the headless one when
    HEADLESS reads true in lower case.  The first argument is spelled
    --start-maximised; the switch by which Chrome opens a maximized
    window, --start-maximized, is never among them. *)
Theorem get_options_arguments env :
  arguments (get_options env)
  = ["--start-maximised"; "--disable-extensions"; "--disable-gpu";
     "--no-sandbox"] ++
    (if String.eqb (PyStr.lower (environ_get env "HEADLESS" "false")) "true"
     then ["--headless=new"] else []) ∧
  (chrome_start_maximized ∉ arguments (get_options env)) ∧
  (chrome_start_maximized ∉ arguments (get_options ∅)).
Proof.
  assert (Hnot : ∀ e, chrome_start_maximized ∉ arguments (get_options e)).
  { intros e. rewrite get_options_arguments_eq.
    destruct (String.eqb _ _); cbn; intros Hin; in_trace Hin. }
  split; [apply get_options_arguments_eq|]. split; apply Hnot.
Qed.

(** ** create_flatpak_wrapper_script *)

Lemma wrapper_script_created h cmd (d : gmap string file) stem :
  tmp_stem h = Return stem →
  write_fault h = None →
  chmod_fault h = None →
  create_flatpak_wrapper_script h cmd d
  = Run (Return (stem +:+ ".sh"))
        (<[stem +:+ ".sh" := File (wrapper_content cmd) mode_755]> d)
        [ev_tempfile ".sh";
         ev_write (stem +:+ ".sh") (wrapper_content cmd);
         ev_chmod (stem +:+ ".sh") mode_755;
         ev_log INFO
           ("Created Flatpak wrapper script at: " +:+ (stem +:+ ".sh"))].
Proof.
  intros Hstem Hwrite Hchmod.
  unfold create_flatpak_wrapper_script, NamedTemporaryFile, file_write,
    os_chmod. unfold_calls.
  rewrite Hstem, Hwrite, Hchmod. cbn.
  rewrite alter_insert_eq, lookup_insert_eq. cbn.
  by rewrite insert_insert_eq.
Qed.

(** ** create_driver *)

(** When the first construction fails, the run is that construction
    followed by the fallback. *)
Lemma create_driver_default_fails h d e0 :
  Chrome h (get_options (environ h)) None = Raise e0 →
  create_driver h d
  = Run (result (fallback h d)) (disk (fallback h d))
        (ev_chrome (get_options (environ h)) None :: trace (fallback h d)).
Proof.
  intros Hdefault. unfold create_driver, try_except, bind, uc_Chrome.
  cbn. rewrite Hdefault. cbn. rewrite caught_by_Exception.
  by destruct (fallback h d).
Qed.

Lemma retry_options o script :
  add_argument
    (add_argument (set_binary_location o script) "--disable-dev-shm-usage")
    "--disable-setuid-sandbox"
  = Options (arguments o ++
             ["--disable-dev-shm-usage"; "--disable-setuid-sandbox"])
            script.
Proof. unfold add_argument, set_binary_location. cbn. by rewrite <- app_assoc. Qed.

(** The fallback on the Flatpak branch. *)
Lemma fallback_flatpak h (d : gmap string file) invocation stem :
  result (find_chrome h d) = Return (Some invocation) →
  PyStr.startswith invocation "flatpak run" = true →
  tmp_stem h = Return stem →
  write_fault h = None →
  chmod_fault h = None →
  let script := stem +:+ ".sh" in
  let retry :=
    Options (arguments (get_options (environ h)) ++
             ["--disable-dev-shm-usage"; "--disable-setuid-sandbox"])
            script in
  let made := <[script := File (wrapper_content invocation) mode_755]> d in
  let prefix :=
    ev_log WARNING
      "Default ChromeDriver creation failed. Trying alternative paths..."
    :: trace (find_chrome h d) ++
    [ev_tempfile ".sh";
     ev_write script (wrapper_content invocation);
     ev_chmod script mode_755;
     ev_log INFO ("Created Flatpak wrapper script at: " +:+ script);
     ev_chrome retry (Some script)] in
  fallback h d =
    match Chrome h retry (Some script) with
    | Return driver =>
        Run (Return driver) made
            (prefix ++
             [ev_log INFO
                ("ChromeDriver started using Flatpak Chrome: "
                 +:+ invocation)])
    | Raise e1 =>
        Run (Raise terminal_error)
            (match unlink_fault h with
             | None => delete script d
             | Some _ => made
             end)
            (prefix ++
             [ev_log ERROR
                ("ChromeDriver failed using Flatpak Chrome " +:+ invocation
                 +:+ ": " +:+ exn_str e1);
              ev_exists script; ev_unlink script])
    end.
Proof.
  intros Hfind Hprefix Hstem Hwrite Hchmod. cbn zeta.
  pose proof (find_chrome_disk h d) as Hdisk.
  unfold fallback. unfold bind, logger. cbn [result disk trace].
  destruct (find_chrome h d) as [res d1 t1]. cbn in Hfind, Hdisk.
  subst res d1. cbn [result disk trace].
  rewrite (startswith_truthy _ Hprefix).
  change (default "" (Some invocation)) with invocation. rewrite Hprefix.
  unfold flatpak_attempt, try_bind_except.
  rewrite (wrapper_script_created h invocation d stem) by done.
  cbn [result disk trace].
  unfold bind at 1, uc_Chrome at 1. cbn [result disk trace].
  rewrite retry_options.
  destruct (Chrome h _ (Some (stem +:+ ".sh"))) as [driver|e1];
    cbn [result disk trace].
  - unfold bind, logger, ret. cbn [result disk trace].
    f_equal. cbn. rewrite <- !app_assoc. done.
  - rewrite caught_by_Exception.
    unfold bind, logger, os_path_exists, try_pass, os_unlink, ret, raise.
    cbn [result disk trace].
    rewrite lookup_insert_eq.
    rewrite bool_decide_eq_true_2 by eauto.
    destruct (unlink_fault h) as [e2|]; cbn [result disk trace].
    + f_equal. cbn. rewrite <- !app_assoc. done.
    + rewrite lookup_insert_eq. cbn [result disk trace].
      rewrite delete_insert_eq.
      f_equal. cbn. rewrite <- !app_assoc. done.
Qed.

(** The fallback when the locator finds nothing. *)
Lemma fallback_not_found h (d : gmap string file) r :
  result (find_chrome h d) = Return r →
  PyStr.truthy r = false →
  fallback h d
  = Run (Raise terminal_error) d
        (ev_log WARNING
           "Default ChromeDriver creation failed. Trying alternative paths..."
         :: trace (find_chrome h d) ++
         [ev_log ERROR
            "No Chrome executable found in known paths or Flatpak installations."]).
Proof.
  intros Hfind Hfalsy.
  pose proof (find_chrome_disk h d) as Hdisk.
  unfold fallback. unfold bind, logger, ret, raise. cbn [result disk trace].
  destruct (find_chrome h d) as [res d1 t1]. cbn in Hfind, Hdisk.
  subst res d1. cbn [result disk trace]. rewrite Hfalsy.
  done.
Qed.

(** The fallback on the branch of a plain executable path. *)
Lemma fallback_direct h (d : gmap string file) path :
  result (find_chrome h d) = Return (Some path) →
  PyStr.truthy (Some path) = true →
  PyStr.startswith path "flatpak run" = false →
  let retry := Options (arguments (get_options (environ h))) path in
  let prefix :=
    ev_log WARNING
      "Default ChromeDriver creation failed. Trying alternative paths..."
    :: trace (find_chrome h d) ++ [ev_chrome retry (Some path)] in
  fallback h d =
    match Chrome h retry (Some path) with
    | Return driver =>
        Run (Return driver) d
            (prefix ++
             [ev_log INFO
                ("ChromeDriver started using browser_executable_path: "
                 +:+ path)])
    | Raise e1 =>
        Run (Raise terminal_error) d
            (prefix ++
             [ev_log ERROR
                ("ChromeDriver failed using path " +:+ path +:+ ": "
                 +:+ exn_str e1)])
    end.
Proof.
  intros Hfind Htruthy Hprefix. cbn zeta.
  pose proof (find_chrome_disk h d) as Hdisk.
  unfold fallback. unfold bind, logger. cbn [result disk trace].
  destruct (find_chrome h d) as [res d1 t1]. cbn in Hfind, Hdisk.
  subst res d1. cbn [result disk trace]. rewrite Htruthy.
  change (default "" (Some path)) with path. rewrite Hprefix.
  unfold direct_attempt, try_except, set_binary_location.
  unfold bind, uc_Chrome, logger, ret, raise. cbn [result disk trace].
  destruct (Chrome h _ (Some path)) as [driver|e1]; cbn [result disk trace].
  - f_equal. cbn. by rewrite <- !app_assoc.
  - rewrite caught_by_Exception. cbn [result disk trace].
    f_equal. cbn. by rewrite <- !app_assoc.
Qed.

(** ** The bootstrapper *)

(** C7: when the first construction has failed and [find_chrome]
    answers a string that starts with flatpak run, and the temporary
    file can be made, [create_driver] makes the script: suffix .sh, mode
    0755, and as text the line #!/bin/bash followed by the line made of
    exec, the invocation as given, and the quoted $@ that forwards all
    arguments.  It then retries once, with the script as the binary
    location of the options and as the executable path, and with
    exactly two more arguments than the default options.  No other
    construction is attempted. *)
Theorem flatpak_wrapper_retry h (d : gmap string file) e0 invocation stem :
  Chrome h (get_options (environ h)) None = Raise e0 →
  result (find_chrome h d) = Return (Some invocation) →
  PyStr.startswith invocation "flatpak run" = true →
  tmp_stem h = Return stem →
  write_fault h = None →
  chmod_fault h = None →
  let script := stem +:+ ".sh" in
  let text :=
    "#!/bin/bash" +:+ String "010"%char
      ("exec " +:+ invocation +:+ " " +:+
       String "034"%char
         ("$@" +:+ String "034"%char (String "010"%char EmptyString))) in
  let retry :=
    Options (arguments (get_options (environ h)) ++
             ["--disable-dev-shm-usage"; "--disable-setuid-sandbox"])
            script in
  create_flatpak_wrapper_script h invocation d
  = Run (Return script)
        (<[script := File text 493]> d)
        [ev_tempfile ".sh";
         ev_write script text;
         ev_chmod script 493;
         ev_log INFO ("Created Flatpak wrapper script at: " +:+ script)] ∧
  wrapper_content invocation = text ∧
  mode_755 = 493 ∧
  (∃ tail,
     trace (create_driver h d)
     = ev_chrome (get_options (environ h)) None
       :: ev_log WARNING
            "Default ChromeDriver creation failed. Trying alternative paths..."
       :: trace (find_chrome h d) ++
       [ev_tempfile ".sh";
        ev_write script text;
        ev_chmod script 493;
        ev_log INFO ("Created Flatpak wrapper script at: " +:+ script);
        ev_chrome retry (Some script)] ++ tail ∧
     ∀ o p, ev_chrome o p ∉ tail) ∧
  (∀ o p,
     ev_chrome o p ∈ trace (create_driver h d) →
     (o = get_options (environ h) ∧ p = None) ∨
     (o = retry ∧ p = Some script)).
Proof.
  intros Hdefault Hfind Hprefix Hstem Hwrite Hchmod. cbn zeta.
  change ("#!/bin/bash" +:+ String "010"%char
            ("exec " +:+ invocation +:+ " " +:+
             String "034"%char
               ("$@" +:+ String "034"%char (String "010"%char EmptyString))))
    with (wrapper_content invocation).
  change 493%Z with mode_755.
  split; [by apply wrapper_script_created|]. split; [done|]. split; [done|].
  assert (Htrace : ∃ tail,
     trace (create_driver h d)
     = ev_chrome (get_options (environ h)) None
       :: ev_log WARNING
            "Default ChromeDriver creation failed. Trying alternative paths..."
       :: trace (find_chrome h d) ++
       [ev_tempfile ".sh";
        ev_write (stem +:+ ".sh") (wrapper_content invocation);
        ev_chmod (stem +:+ ".sh") mode_755;
        ev_log INFO
          ("Created Flatpak wrapper script at: " +:+ (stem +:+ ".sh"));
        ev_chrome
          (Options (arguments (get_options (environ h)) ++
                    ["--disable-dev-shm-usage"; "--disable-setuid-sandbox"])
                   (stem +:+ ".sh"))
          (Some (stem +:+ ".sh"))] ++ tail ∧
     ∀ o p, ev_chrome o p ∉ tail).
  { rewrite (create_driver_default_fails h d e0) by done. cbn [trace].
    rewrite (fallback_flatpak h d invocation stem) by done. cbn zeta.
    destruct (Chrome h _ (Some (stem +:+ ".sh"))) as [driver|e1];
      cbn [trace app]; eexists; (split; [by rewrite <- app_assoc|]);
      intros o p Hin; in_trace Hin. }
  split; [exact Htrace|].
  destruct Htrace as (tail & -> & Htail). intros o p Hin.
  apply elem_of_cons in Hin as [Hin|Hin]; [left; by injection Hin|].
  apply elem_of_cons in Hin as [Hin|Hin]; [discriminate Hin|].
  apply elem_of_app in Hin as [Hin|Hin];
    [by apply find_chrome_no_chrome in Hin|].
  apply elem_of_app in Hin as [Hin|Hin]; [|by apply Htail in Hin].
  in_trace Hin. right. by injection Hin.
Qed.

Lemma flatpak_wrapper_retry_witness :
  result (find_chrome Sample.linux_flatpak ∅)
  = Return (Some "flatpak run com.google.Chrome") ∧
  create_flatpak_wrapper_script Sample.linux_flatpak
    "flatpak run com.google.Chrome" ∅
  = Run (Return "/tmp/tmpk3x9.sh")
        {[ "/tmp/tmpk3x9.sh" :=
             File ("#!/bin/bash" +:+ String "010"%char
                     ("exec flatpak run com.google.Chrome " +:+
                      String "034"%char
                        ("$@" +:+
                         String "034"%char (String "010"%char EmptyString))))
                  493 ]}
        [ev_tempfile ".sh";
         ev_write "/tmp/tmpk3x9.sh"
           ("#!/bin/bash" +:+ String "010"%char
              ("exec flatpak run com.google.Chrome " +:+
               String "034"%char
                 ("$@" +:+
                  String "034"%char (String "010"%char EmptyString))));
         ev_chmod "/tmp/tmpk3x9.sh" 493;
         ev_log INFO "Created Flatpak wrapper script at: /tmp/tmpk3x9.sh"].
Proof.
  assert (Hfind : result (find_chrome Sample.linux_flatpak ∅)
                  = Return (Some "flatpak run com.google.Chrome"))
    by (vm_compute; reflexivity).
  split; [exact Hfind|].
  exact (proj1 (flatpak_wrapper_retry Sample.linux_flatpak ∅
                  (Exn SessionNotCreatedException "session not created")
                  "flatpak run com.google.Chrome" "/tmp/tmpk3x9"
                  eq_refl Hfind eq_refl eq_refl eq_refl eq_refl)).
Defined.

(** C8: on the Flatpak branch, a retry that succeeds returns the driver
    and leaves the script on disk, never calling unlink; a retry that
    fails logs the error, finds the script still there, unlinks it, and
    raises the terminal error, whether or not the unlink itself fails. *)
Theorem flatpak_wrapper_cleanup h (d : gmap string file) e0 invocation stem :
  Chrome h (get_options (environ h)) None = Raise e0 →
  result (find_chrome h d) = Return (Some invocation) →
  PyStr.startswith invocation "flatpak run" = true →
  tmp_stem h = Return stem →
  write_fault h = None →
  chmod_fault h = None →
  let script := stem +:+ ".sh" in
  let retry :=
    Options (arguments (get_options (environ h)) ++
             ["--disable-dev-shm-usage"; "--disable-setuid-sandbox"])
            script in
  let made := <[script := File (wrapper_content invocation) mode_755]> d in
  match Chrome h retry (Some script) with
  | Return driver =>
      result (create_driver h d) = Return driver ∧
      disk (create_driver h d) = made ∧
      (∀ p, ev_unlink p ∉ trace (create_driver h d))
  | Raise e1 =>
      result (create_driver h d) = Raise terminal_error ∧
      disk (create_driver h d)
      = match unlink_fault h with
        | None => delete script d
        | Some _ => made
        end ∧
      ∃ before,
        trace (create_driver h d)
        = before ++
          [ev_chrome retry (Some script);
           ev_log ERROR
             ("ChromeDriver failed using Flatpak Chrome " +:+ invocation
              +:+ ": " +:+ exn_str e1);
           ev_exists script; ev_unlink script]
  end.
Proof.
  intros Hdefault Hfind Hprefix Hstem Hwrite Hchmod. cbn zeta.
  rewrite (create_driver_default_fails h d e0) by done.
  rewrite (fallback_flatpak h d invocation stem) by done. cbn zeta.
  destruct (Chrome h _ (Some (stem +:+ ".sh"))) as [driver|e1];
    cbn [result disk trace].
  - split; [done|]. split; [done|]. intros p Hin.
    apply elem_of_cons in Hin as [Hin|Hin]; [discriminate Hin|].
    apply elem_of_app in Hin as [Hin|Hin]; [|in_trace Hin].
    apply elem_of_cons in Hin as [Hin|Hin]; [discriminate Hin|].
    apply elem_of_app in Hin as [Hin|Hin]; [|in_trace Hin].
    by apply find_chrome_no_unlink in Hin.
  - split; [done|]. split; [done|].
    eexists (ev_chrome _ None :: ev_log WARNING _ :: trace (find_chrome h d)
             ++ [_; _; _; _]).
    cbn. f_equal. f_equal. rewrite <- !app_assoc. done.
Qed.

Lemma flatpak_wrapper_cleanup_witness :
  (result (create_driver Sample.linux_flatpak ∅) = Return (Session 1) ∧
   disk (create_driver Sample.linux_flatpak ∅) !! "/tmp/tmpk3x9.sh"
   = Some (File (wrapper_content "flatpak run com.google.Chrome") 493)) ∧
  (result (create_driver Sample.linux_flatpak_broken ∅)
   = Raise terminal_error ∧
   disk (create_driver Sample.linux_flatpak_broken ∅) !! "/tmp/tmpk3x9.sh"
   = None).
Proof.
  split.
  - pose proof (flatpak_wrapper_cleanup Sample.linux_flatpak ∅
                  (Exn SessionNotCreatedException "session not created")
                  "flatpak run com.google.Chrome" "/tmp/tmpk3x9"
                  eq_refl eq_refl eq_refl eq_refl eq_refl eq_refl) as H.
    cbn zeta in H. destruct H as (Hres & Hdisk & _).
    split; [exact Hres|]. rewrite Hdisk. apply lookup_insert_eq.
  - pose proof (flatpak_wrapper_cleanup Sample.linux_flatpak_broken ∅
                  (Exn SessionNotCreatedException "session not created")
                  "flatpak run com.google.Chrome" "/tmp/tmpk3x9"
                  eq_refl eq_refl eq_refl eq_refl eq_refl eq_refl) as H.
    cbn zeta in H. destruct H as (Hres & Hdisk & _).
    split; [exact Hres|]. rewrite Hdisk. apply lookup_delete_eq.
Defined.

(** C1 (the code departs from it): on the host where [flatpak] cannot be
    executed, the first construction fails, [find_chrome] raises the
    [PermissionError] of [subprocess.run] from inside the handler, and
    that exception, not the terminal one, is what [create_driver]
    raises; nothing is logged past the first warning. *)
Theorem create_driver_spawn_failure_escapes :
  create_driver Sample.linux_spawn_fails ∅
  = Run (Raise (Exn PermissionError "[Errno 13] Permission denied: 'flatpak'"))
        ∅
        (ev_chrome (get_options ∅) None
         :: ev_log WARNING
              "Default ChromeDriver creation failed. Trying alternative paths..."
         :: (ev_exists <$> possiblePaths) ++
         [ev_system; ev_which "flatpak";
          ev_run ["flatpak"; "list"; "--app"] 10]) ∧
  Exn PermissionError "[Errno 13] Permission denied: 'flatpak'"
  ≠ terminal_error.
Proof. split; [by vm_compute|discriminate]. Qed.

(** * Further properties of the locator *)

(** The scan answers a listed path that exists, or nothing when none
    does. *)
Lemma scan_paths_result paths (d : gmap string file) :
  (∃ p, p ∈ paths ∧ is_Some (d !! p) ∧
        result (scan_paths paths d) = Return (Some p)) ∨
  ((∀ q, q ∈ paths → d !! q = None) ∧
   result (scan_paths paths d) = Return None).
Proof.
  destruct (decide (Exists (λ p, is_Some (d !! p)) paths)) as [Hex|Hno].
  - left. apply Exists_exists in Hex as (p0 & Hin & Hp0).
    destruct (first_existing paths d) as (before & p & after & -> & Hb & Hp);
      [eauto|].
    exists p. split; [|split; [done|]].
    + apply elem_of_app. right. apply list_elem_of_here.
    + by rewrite scan_paths_hit.
  - right.
    assert (Hnone : ∀ q, q ∈ paths → d !! q = None).
    { intros q Hq. destruct (d !! q) as [f|] eqn:Hdq; [|done].
      exfalso. apply Hno, Exists_exists. exists q. split; [done|].
      by rewrite Hdq. }
    split; [done|]. by rewrite scan_paths_none.
Qed.

Lemma candidate_truthy p : p ∈ possiblePaths → PyStr.truthy (Some p) = true.
Proof. unfold possiblePaths. intros Hin. in_trace Hin; by subst p. Qed.

Lemma flatpak_step_truthy h d r :
  result (flatpak_step h d) = Return r → r = None ∨ PyStr.truthy r = true.
Proof.
  unfold flatpak_step, scan_apps. unfold_calls.
  run_cases; intros Heq; simplify_eq; auto.
Qed.

Lemma path_step_truthy h d r :
  result (path_step h d) = Return r → r = None ∨ PyStr.truthy r = true.
Proof.
  unfold path_step. unfold_calls.
  run_cases; intros Heq; simplify_eq; auto.
Qed.

Lemma find_chrome_scan_hit h d p :
  result (scan_paths possiblePaths d) = Return (Some p) →
  result (find_chrome h d) = Return (Some p).
Proof.
  unfold find_chrome, bind.
  destruct (scan_paths possiblePaths d) as [[[hit|]|x] d1 t1]; cbn;
    intros; by simplify_eq.
Qed.

Lemma find_chrome_truthy h d r :
  result (find_chrome h d) = Return r → r = None ∨ PyStr.truthy r = true.
Proof.
  destruct (scan_paths_result possiblePaths d)
    as [(p & Hin & Hp & Hscan)|[Hnone Hscan]].
  - rewrite (find_chrome_scan_hit h d p Hscan). intros [= <-]. right.
    by apply candidate_truthy.
  - rewrite find_chrome_no_candidate by done. cbn zeta.
    pose proof (flatpak_step_truthy h d) as Hflat.
    destruct (result (flatpak_step h d)) as [[inv|]|e]; cbn [result].
    + intros [= <-]. by apply Hflat.
    + apply path_step_truthy.
    + discriminate.
Qed.

(** X1: the locator only looks.  Whatever the host and the disk, every
    call [find_chrome] makes is a probe (a path test, the platform name,
    a PATH lookup, the listing process, a log line): it writes no file,
    removes none, starts no browser, and the disk after it is the disk
    before it. *)
Theorem find_chrome_only_probes h (d : gmap string file) :
  disk (find_chrome h d) = d ∧
  Forall (λ e, is_probe e = true) (trace (find_chrome h d)).
Proof.
  split; [apply find_chrome_disk|].
  apply Forall_forall. intros e. apply find_chrome_probes.
Qed.

(** X2: a listing that succeeds decides by containment, Chrome first.
    With no candidate on disk, on Linux with [flatpak] on PATH and a
    listing that exits with status 0, [find_chrome] answers the Chrome
    invocation when the output contains com.google.Chrome anywhere
    (even inside a longer identifier), else the Chromium invocation when
    it contains org.chromium.Chromium, else what the PATH lookup
    answers; on a match the only PATH lookup made is that of flatpak. *)
Theorem flatpak_listing_match h (d : gmap string file) fp out :
  (∀ q, q ∈ possiblePaths → d !! q = None) →
  system h = "Linux" →
  which h "flatpak" = Return fp →
  PyStr.truthy fp = true →
  run_process h ["flatpak"; "list"; "--app"] = Return (Completed 0 out) →
  result (find_chrome h d)
  = (if PyStr.contains out "com.google.Chrome"
     then Return (Some "flatpak run com.google.Chrome")
     else if PyStr.contains out "org.chromium.Chromium"
          then Return (Some "flatpak run org.chromium.Chromium")
          else result (path_step h d)) ∧
  (PyStr.contains out "com.google.Chrome"
   || PyStr.contains out "org.chromium.Chromium" = true →
   ∀ cmd, ev_which cmd ∈ trace (find_chrome h d) → cmd = "flatpak").
Proof.
  intros Hnone Hsys%String.eqb_eq Hwhich Hfp Hrun.
  rewrite find_chrome_no_candidate by done. cbn zeta.
  assert (Hstep : flatpak_step h d
    = if PyStr.contains out "com.google.Chrome"
      then Run (Return (Some "flatpak run com.google.Chrome")) d
             [ev_system; ev_which "flatpak";
              ev_run ["flatpak"; "list"; "--app"] 10;
              ev_log INFO
                "Found Flatpak Chrome installation: com.google.Chrome"]
      else if PyStr.contains out "org.chromium.Chromium"
      then Run (Return (Some "flatpak run org.chromium.Chromium")) d
             [ev_system; ev_which "flatpak";
              ev_run ["flatpak"; "list"; "--app"] 10;
              ev_log INFO
                "Found Flatpak Chrome installation: org.chromium.Chromium"]
      else Run (Return None) d
             [ev_system; ev_which "flatpak";
              ev_run ["flatpak"; "list"; "--app"] 10]).
  { unfold flatpak_step, scan_apps. unfold_calls. cbn.
    rewrite Hsys. cbn. rewrite Hwhich. cbn. rewrite Hfp. cbn.
    rewrite Hrun. cbn.
    destruct (PyStr.contains out "com.google.Chrome"); [done|].
    by destruct (PyStr.contains out "org.chromium.Chromium"). }
  rewrite Hstep.
  destruct (PyStr.contains out "com.google.Chrome");
    [|destruct (PyStr.contains out "org.chromium.Chromium")];
    cbn [result trace orb]; (split; [done|]); intros Hmatch cmd Hin;
    try discriminate Hmatch.
  all: apply elem_of_app in Hin as [(q & Hq & _)%list_elem_of_fmap|Hin];
    [discriminate Hq|]; in_trace Hin; by simplify_eq.
Qed.

Lemma flatpak_listing_match_witness :
  PyStr.contains "Google Chrome (unstable)  com.google.ChromeDev  dev"
    "com.google.Chrome" = true ∧
  result (find_chrome Sample.linux_flatpak_dev ∅)
  = Return (Some "flatpak run com.google.Chrome").
Proof.
  split; [vm_compute; reflexivity|].
  exact (proj1 (flatpak_listing_match Sample.linux_flatpak_dev ∅
                  (Some "/usr/bin/flatpak")
                  "Google Chrome (unstable)  com.google.ChromeDev  dev"
                  (λ q _, lookup_empty q) eq_refl eq_refl eq_refl eq_refl)).
Defined.

(** X3: a listing that times out is absorbed.  With no candidate on
    disk, on Linux with [flatpak] on PATH, when [subprocess.run] raises
    [TimeoutExpired] or any other [SubprocessError], [find_chrome] logs
    one warning that carries the text of the exception and goes on to
    the PATH lookup, whose answer it returns. *)
Theorem flatpak_timeout_continues h (d : gmap string file) fp e :
  (∀ q, q ∈ possiblePaths → d !! q = None) →
  system h = "Linux" →
  which h "flatpak" = Return fp →
  PyStr.truthy fp = true →
  run_process h ["flatpak"; "list"; "--app"] = Raise e →
  caught_by [TimeoutExpired; SubprocessError] e = true →
  find_chrome h d
  = Run (result (path_step h d)) d
        ((ev_exists <$> possiblePaths) ++
         [ev_system; ev_which "flatpak";
          ev_run ["flatpak"; "list"; "--app"] 10;
          ev_log WARNING
            ("Error checking Flatpak installations: " +:+ exn_str e)] ++
         trace (path_step h d)).
Proof.
  intros Hnone Hsys Hwhich Hfp Hrun Hcaught.
  rewrite find_chrome_no_candidate by done. cbn zeta.
  by rewrite (flatpak_step_handled h d fp e).
Qed.

Lemma flatpak_timeout_continues_witness :
  caught_by [TimeoutExpired; SubprocessError]
    (Exn TimeoutExpired
       "Command '['flatpak', 'list', '--app']' timed out after 10 seconds")
  = true ∧
  result (find_chrome Sample.linux_timeout ∅)
  = Return (Some "/usr/bin/chromium").
Proof.
  split; [reflexivity|].
  rewrite (flatpak_timeout_continues Sample.linux_timeout ∅
             (Some "/usr/bin/flatpak")
             (Exn TimeoutExpired
                "Command '['flatpak', 'list', '--app']' timed out after 10 seconds")
             (λ q _, lookup_empty q) eq_refl eq_refl eq_refl eq_refl eq_refl).
  vm_compute. reflexivity.
Defined.

(** X4: what [find_chrome] returns is [None] or a string that is not
    empty, so the test [if chrome_path:] of its caller fails for [None]
    only. *)
Theorem find_chrome_none_or_nonempty h (d : gmap string file) r :
  result (find_chrome h d) = Return r →
  r = None ∨ ∃ path, r = Some path ∧ path ≠ "".
Proof.
  intros [->|Htruthy]%find_chrome_truthy; [by left|right].
  destruct r as [[|c path]|]; try discriminate Htruthy. eauto.
Qed.

Lemma find_chrome_none_or_nonempty_witness :
  result (find_chrome Sample.linux_path ∅)
  = Return (Some "/usr/bin/google-chrome") ∧
  "/usr/bin/google-chrome" ≠ "".
Proof.
  assert (Hres : result (find_chrome Sample.linux_path ∅)
                 = Return (Some "/usr/bin/google-chrome"))
    by (vm_compute; reflexivity).
  split; [exact Hres|].
  destruct (find_chrome_none_or_nonempty Sample.linux_path ∅ _ Hres)
    as [Hnone|(path & Hsome & Hpath)]; [discriminate Hnone|].
  by injection Hsome as <-.
Defined.

(** X5: the one way [find_chrome] raises.  If it raises at all, then no
    candidate is on disk, the platform is Linux, and the exception comes
    from the Flatpak step: from the lookup of [flatpak] itself, or from
    the listing process with a class that is neither [TimeoutExpired]
    nor another [SubprocessError]. *)
Theorem find_chrome_raises_only_from_flatpak h (d : gmap string file) e :
  result (find_chrome h d) = Raise e →
  (∀ q, q ∈ possiblePaths → d !! q = None) ∧
  system h = "Linux" ∧
  (which h "flatpak" = Raise e ∨
   ∃ fp, which h "flatpak" = Return fp ∧ PyStr.truthy fp = true ∧
         run_process h ["flatpak"; "list"; "--app"] = Raise e ∧
         caught_by [TimeoutExpired; SubprocessError] e = false).
Proof.
  destruct (scan_paths_result possiblePaths d)
    as [(p & Hin & Hp & Hscan)|[Hnone Hscan]].
  { rewrite (find_chrome_scan_hit h d p Hscan). discriminate. }
  rewrite find_chrome_no_candidate by done. cbn zeta. intros Hraise.
  split; [done|].
  assert (Hflat : result (flatpak_step h d) = Raise e).
  { destruct (result (flatpak_step h d)) as [[inv|]|x]; cbn in Hraise;
      try discriminate Hraise; [|by injection Hraise as ->].
    destruct (path_step_returns h d) as [r Hr]. rewrite Hr in Hraise.
    discriminate Hraise. }
  clear Hraise. revert Hflat.
  unfold flatpak_step, scan_apps. unfold_calls.
  run_cases; intros Heq; simplify_eq.
  all: split; [by apply String.eqb_eq|]; eauto 10.
Qed.

Lemma find_chrome_raises_only_from_flatpak_witness :
  result (find_chrome Sample.linux_spawn_fails ∅)
  = Raise (Exn PermissionError "[Errno 13] Permission denied: 'flatpak'") ∧
  system Sample.linux_spawn_fails = "Linux".
Proof.
  assert (Hres : result (find_chrome Sample.linux_spawn_fails ∅)
    = Raise (Exn PermissionError "[Errno 13] Permission denied: 'flatpak'"))
    by (vm_compute; reflexivity).
  split; [exact Hres|].
  exact (proj1 (proj2 (find_chrome_raises_only_from_flatpak
                         Sample.linux_spawn_fails ∅ _ Hres))).
Defined.

(** * Further properties of the bootstrapper *)

(** Drop the branches in which [except Exception] would let an
    exception pass: there is none. *)
Ltac no_escape :=
  try match goal with
      | H : caught_by [Exception] _ = false |- _ =>
          by rewrite caught_by_Exception in H
      end.

Ltac unfold_attempts :=
  unfold flatpak_attempt, direct_attempt, try_bind_except,
    create_flatpak_wrapper_script, NamedTemporaryFile, file_write, os_chmod,
    os_unlink, set_binary_location, add_argument;
  unfold_calls.

(** The two retries end in a driver or in nothing; they never raise. *)
Lemma flatpak_attempt_returns h path o d :
  ∃ r, result (flatpak_attempt h path o d) = Return r.
Proof. unfold_attempts. run_cases; no_escape; eauto. Qed.

Lemma direct_attempt_returns h path o d :
  ∃ r, result (direct_attempt h path o d) = Return r.
Proof. unfold_attempts. run_cases; no_escape; eauto. Qed.

(** Each retry starts the browser at most once. *)
Lemma flatpak_attempt_constructions h path o d :
  (length (List.filter is_construction (trace (flatpak_attempt h path o d)))
   ≤ 1)%nat.
Proof. unfold_attempts. run_cases; no_escape; lia. Qed.

Lemma direct_attempt_constructions h path o d :
  (length (List.filter is_construction (trace (direct_attempt h path o d)))
   ≤ 1)%nat.
Proof. unfold_attempts. run_cases; no_escape; lia. Qed.

Lemma probes_no_construction (t : list event) :
  (∀ e, e ∈ t → is_probe e = true) →
  List.filter is_construction t = [].
Proof.
  induction t as [|e t IH]; intros Hprobe; [done|]. cbn.
  assert (He : is_probe e = true) by (apply Hprobe, list_elem_of_here).
  rewrite IH by (intros e' He'; apply Hprobe; by apply list_elem_of_further).
  by destruct e.
Qed.

(** Case analysis on a run of [create_driver]: the first construction,
    then what the locator answers, then the branch taken. *)
Ltac driver_cases h d :=
  unfold create_driver, try_except, bind, uc_Chrome, logger; cbn;
  destruct (Chrome h (get_options (environ h)) None) as [?drv|?e0]
    eqn:?Hdefault; cbn;
  [| rewrite caught_by_Exception;
     unfold fallback, bind, logger, ret, raise; cbn;
     pose proof (find_chrome_disk h d) as ?Hdisk;
     pose proof (find_chrome_probes h d) as ?Hprobes;
     destruct (find_chrome h d) as [[?r|?e] ?d1 ?t1] eqn:?Hfind;
     cbn in *; subst;
     [ destruct (PyStr.truthy _) eqn:?Htruthy;
       [destruct (PyStr.startswith _ _) eqn:?Hprefix|]; cbn | ] ].

(** X6: when the first construction succeeds, [create_driver] returns
    that driver at once: the locator is not consulted, nothing is probed
    and the disk is untouched. *)
Theorem create_driver_first_attempt h (d : gmap string file) driver :
  Chrome h (get_options (environ h)) None = Return driver →
  create_driver h d
  = Run (Return driver) d
        [ev_chrome (get_options (environ h)) None;
         ev_log INFO "ChromeDriver installed and browser started."].
Proof.
  intros Hok. driver_cases h d; by simplify_eq.
Qed.

Lemma create_driver_first_attempt_witness :
  create_driver Sample.driver_ready Sample.two_browsers
  = Run (Return (Session 7)) Sample.two_browsers
        [ev_chrome
           (Options ["--start-maximised"; "--disable-extensions";
                     "--disable-gpu"; "--no-sandbox"; "--headless=new"] "")
           None;
         ev_log INFO "ChromeDriver installed and browser started."].
Proof.
  exact (create_driver_first_attempt Sample.driver_ready Sample.two_browsers
           (Session 7) eq_refl).
Defined.

(** X7: when the first construction fails and the locator finds
    nothing, [create_driver] logs that no executable was found and
    raises the terminal error; the first construction is the only one,
    and the disk is untouched. *)
Theorem create_driver_not_found h (d : gmap string file) e0 :
  Chrome h (get_options (environ h)) None = Raise e0 →
  result (find_chrome h d) = Return None →
  create_driver h d
  = Run (Raise terminal_error) d
        (ev_chrome (get_options (environ h)) None
         :: ev_log WARNING
              "Default ChromeDriver creation failed. Trying alternative paths..."
         :: trace (find_chrome h d) ++
         [ev_log ERROR
            "No Chrome executable found in known paths or Flatpak installations."]) ∧
  List.filter is_construction (trace (create_driver h d))
  = [ev_chrome (get_options (environ h)) None].
Proof.
  intros Hfail Hnone.
  rewrite (create_driver_default_fails h d e0) by done.
  rewrite (fallback_not_found h d None) by done. cbn [result disk trace].
  split; [done|]. cbn. f_equal.
  rewrite List.filter_app, probes_no_construction; [done|].
  apply find_chrome_probes.
Qed.

Lemma create_driver_not_found_witness :
  result (find_chrome Sample.windows_bare ∅) = Return None ∧
  result (create_driver Sample.windows_bare ∅) = Raise terminal_error.
Proof.
  assert (Hnone : result (find_chrome Sample.windows_bare ∅) = Return None)
    by (vm_compute; reflexivity).
  split; [exact Hnone|].
  destruct (create_driver_not_found Sample.windows_bare ∅
              (Exn SessionNotCreatedException "session not created")
              eq_refl Hnone) as [-> _].
  reflexivity.
Defined.

(** X8: when the first construction fails and the locator answers a
    path that does not start with flatpak run, [create_driver] retries
    once with that path as binary location and as executable path and
    with the arguments of the default options, makes no script and
    leaves the disk untouched; it returns the driver of the retry, or
    logs its failure and raises the terminal error. *)
Theorem create_driver_direct_path h (d : gmap string file) e0 path :
  Chrome h (get_options (environ h)) None = Raise e0 →
  result (find_chrome h d) = Return (Some path) →
  PyStr.startswith path "flatpak run" = false →
  let retry := Options (arguments (get_options (environ h))) path in
  let before :=
    ev_chrome (get_options (environ h)) None
    :: ev_log WARNING
         "Default ChromeDriver creation failed. Trying alternative paths..."
    :: trace (find_chrome h d) ++ [ev_chrome retry (Some path)] in
  create_driver h d =
    match Chrome h retry (Some path) with
    | Return driver =>
        Run (Return driver) d
            (before ++
             [ev_log INFO
                ("ChromeDriver started using browser_executable_path: "
                 +:+ path)])
    | Raise e1 =>
        Run (Raise terminal_error) d
            (before ++
             [ev_log ERROR
                ("ChromeDriver failed using path " +:+ path +:+ ": "
                 +:+ exn_str e1)])
    end.
Proof.
  intros Hfail Hfind Hprefix. cbn zeta.
  assert (Htruthy : PyStr.truthy (Some path) = true).
  { by destruct (find_chrome_truthy h d (Some path) Hfind). }
  rewrite (create_driver_default_fails h d e0) by done.
  rewrite (fallback_direct h d path) by done. cbn zeta.
  by destruct (Chrome h _ (Some path)).
Qed.

Lemma create_driver_direct_path_witness :
  result (find_chrome Sample.linux_path ∅)
  = Return (Some "/usr/bin/google-chrome") ∧
  result (create_driver Sample.linux_path ∅) = Return (Session 1) ∧
  disk (create_driver Sample.linux_path ∅) = ∅.
Proof.
  assert (Hfind : result (find_chrome Sample.linux_path ∅)
                  = Return (Some "/usr/bin/google-chrome"))
    by (vm_compute; reflexivity).
  split; [exact Hfind|].
  rewrite (create_driver_direct_path Sample.linux_path ∅
             (Exn SessionNotCreatedException "session not created")
             "/usr/bin/google-chrome" eq_refl Hfind eq_refl).
  split; reflexivity.
Defined.

(** X9: as long as the locator itself does not raise, a run of
    [create_driver] ends in a driver or in the terminal error, whatever
    the constructor and the file calls raise on the way. *)
Theorem create_driver_outcome h (d : gmap string file) :
  (∀ e, result (find_chrome h d) ≠ Raise e) →
  (∃ driver, result (create_driver h d) = Return driver) ∨
  result (create_driver h d) = Raise terminal_error.
Proof.
  intros Hlocator. driver_cases h d; eauto.
  - pose proof (flatpak_attempt_returns h (default "" r)
                  (get_options (environ h)) d) as [o Ho].
    destruct (flatpak_attempt _ _ _ _) as [res d2 t2]. cbn in Ho. subst res.
    destruct o; eauto.
  - pose proof (direct_attempt_returns h (default "" r)
                  (get_options (environ h)) d) as [o Ho].
    destruct (direct_attempt _ _ _ _) as [res d2 t2]. cbn in Ho. subst res.
    destruct o; eauto.
  - by destruct (Hlocator e).
Qed.

Lemma create_driver_outcome_witness :
  (∀ e, result (find_chrome Sample.linux_flatpak_broken ∅) ≠ Raise e) ∧
  result (create_driver Sample.linux_flatpak_broken ∅) = Raise terminal_error.
Proof.
  assert (Hlocator : ∀ e, result (find_chrome Sample.linux_flatpak_broken ∅)
                          ≠ Raise e)
    by (intros e; vm_compute; discriminate).
  split; [exact Hlocator|].
  destruct (create_driver_outcome Sample.linux_flatpak_broken ∅ Hlocator)
    as [[driver Hres]|Hres]; [|exact Hres].
  vm_compute in Hres. discriminate Hres.
Defined.

(** X10: a script that cannot be made executable is left behind.  On
    the Flatpak branch, when the temporary file is made and written but
    [os.chmod] raises, no retry takes place and no unlink is attempted:
    [create_driver] raises the terminal error and the script stays on
    disk, with its text and the mode 0600 it was created with. *)
Theorem wrapper_chmod_failure_leaks h (d : gmap string file) e0 invocation
    stem e :
  Chrome h (get_options (environ h)) None = Raise e0 →
  result (find_chrome h d) = Return (Some invocation) →
  PyStr.startswith invocation "flatpak run" = true →
  tmp_stem h = Return stem →
  write_fault h = None →
  chmod_fault h = Some e →
  create_driver h d
  = Run (Raise terminal_error)
        (<[stem +:+ ".sh" := File (wrapper_content invocation) 384]> d)
        (ev_chrome (get_options (environ h)) None
         :: ev_log WARNING
              "Default ChromeDriver creation failed. Trying alternative paths..."
         :: trace (find_chrome h d) ++
         [ev_tempfile ".sh";
          ev_write (stem +:+ ".sh") (wrapper_content invocation);
          ev_chmod (stem +:+ ".sh") mode_755;
          ev_log ERROR
            ("ChromeDriver failed using Flatpak Chrome " +:+ invocation
             +:+ ": " +:+ exn_str e)]).
Proof.
  intros Hfail Hfind Hprefix Hstem Hwrite Hchmod.
  rewrite (create_driver_default_fails h d e0) by done.
  pose proof (find_chrome_disk h d) as Hdisk.
  unfold fallback. unfold bind, logger. cbn [result disk trace].
  destruct (find_chrome h d) as [res d1 t1]. cbn in Hfind, Hdisk.
  subst res d1. cbn [result disk trace].
  rewrite (startswith_truthy _ Hprefix).
  change (default "" (Some invocation)) with invocation. rewrite Hprefix.
  unfold_attempts. rewrite Hstem, Hwrite, Hchmod. cbn.
  rewrite caught_by_Exception. cbn.
  by rewrite alter_insert_eq.
Qed.

Lemma wrapper_chmod_failure_leaks_witness :
  result (find_chrome Sample.linux_flatpak_chmod_fails ∅)
  = Return (Some "flatpak run com.google.Chrome") ∧
  result (create_driver Sample.linux_flatpak_chmod_fails ∅)
  = Raise terminal_error ∧
  disk (create_driver Sample.linux_flatpak_chmod_fails ∅) !! "/tmp/tmpk3x9.sh"
  = Some (File (wrapper_content "flatpak run com.google.Chrome") 384).
Proof.
  assert (Hfind : result (find_chrome Sample.linux_flatpak_chmod_fails ∅)
                  = Return (Some "flatpak run com.google.Chrome"))
    by (vm_compute; reflexivity).
  split; [exact Hfind|].
  rewrite (wrapper_chmod_failure_leaks Sample.linux_flatpak_chmod_fails ∅
             (Exn SessionNotCreatedException "session not created")
             "flatpak run com.google.Chrome" "/tmp/tmpk3x9"
             (Exn PermissionError "[Errno 1] Operation not permitted")
             eq_refl Hfind eq_refl eq_refl eq_refl eq_refl).
  split; [reflexivity|]. cbn [disk]. apply lookup_insert_eq.
Defined.

(** X11: no run of [create_driver] tries to start the browser more than
    twice. *)
Theorem create_driver_at_most_two_constructions h (d : gmap string file) :
  (length (List.filter is_construction (trace (create_driver h d))) ≤ 2)%nat.
Proof.
  driver_cases h d.
  - lia.
  - pose proof (flatpak_attempt_constructions h (default "" r)
                  (get_options (environ h)) d) as Hcount.
    destruct (flatpak_attempt _ _ _ _) as [[[drv|]|x] d2 t2]; cbn in *;
      rewrite ?List.filter_app, ?length_app, (probes_no_construction t1)
        by done; cbn; rewrite ?List.filter_app, ?length_app; cbn; lia.
  - pose proof (direct_attempt_constructions h (default "" r)
                  (get_options (environ h)) d) as Hcount.
    destruct (direct_attempt _ _ _ _) as [[[drv|]|x] d2 t2]; cbn in *;
      rewrite ?List.filter_app, ?length_app, (probes_no_construction t1)
        by done; cbn; rewrite ?List.filter_app, ?length_app; cbn; lia.
  - rewrite ?List.filter_app, ?length_app, (probes_no_construction t1)
      by done. cbn. lia.
  - rewrite (probes_no_construction t1) by done. cbn. lia.
Qed.

(** The file calls of the two retries.  The direct one makes none; the
    Flatpak one asks for a temporary file with suffix .sh and then
    writes, makes executable and removes that file only. *)
Lemma direct_attempt_file_calls h path o d :
  ∀ ev, ev ∈ trace (direct_attempt h path o d) →
        is_probe ev = true ∨ is_construction ev = true.
Proof.
  unfold_attempts. run_cases; no_escape; intros ev Hin; in_trace Hin;
    subst ev; auto.
Qed.

Lemma flatpak_attempt_file_calls h path o d :
  (∀ suffix, ev_tempfile suffix ∈ trace (flatpak_attempt h path o d) →
             suffix = ".sh") ∧
  (∀ p text, ev_write p text ∈ trace (flatpak_attempt h path o d) →
             (∃ stem, tmp_stem h = Return stem ∧ p = stem +:+ ".sh") ∧
             text = wrapper_content path) ∧
  (∀ p m, ev_chmod p m ∈ trace (flatpak_attempt h path o d) →
          (∃ stem, tmp_stem h = Return stem ∧ p = stem +:+ ".sh") ∧
          m = 493) ∧
  (∀ p, ev_unlink p ∈ trace (flatpak_attempt h path o d) →
        ∃ stem, tmp_stem h = Return stem ∧ p = stem +:+ ".sh").
Proof.
  unfold_attempts.
  destruct (tmp_stem h) as [stem|e] eqn:Hstem;
    run_cases; no_escape;
    (split; [|split; [|split]]); intros; 
    match goal with H : _ ∈ _ |- _ => in_trace H; simplify_eq end;
    eauto.
Qed.

(** X12: the file calls [create_driver] makes itself are all on the
    temporary script.  On every host and disk, a temporary file is only
    ever asked for with suffix .sh; every write goes to the path that
    [NamedTemporaryFile] returned and carries the script text for the
    invocation the locator answered; every chmod is on that path with
    mode 0755; every unlink is of that path.  The path the locator
    answers, and every other path, is never the target of a write, a
    chmod or an unlink.  (What the driver constructor and the listing
    process do to the disk is not the subject of this statement.) *)
Theorem create_driver_file_calls h (d : gmap string file) :
  (∀ suffix, ev_tempfile suffix ∈ trace (create_driver h d) →
             suffix = ".sh") ∧
  (∀ p text, ev_write p text ∈ trace (create_driver h d) →
             (∃ stem, tmp_stem h = Return stem ∧ p = stem +:+ ".sh") ∧
             ∃ invocation,
               result (find_chrome h d) = Return (Some invocation) ∧
               text = wrapper_content invocation) ∧
  (∀ p m, ev_chmod p m ∈ trace (create_driver h d) →
          (∃ stem, tmp_stem h = Return stem ∧ p = stem +:+ ".sh") ∧
          m = 493) ∧
  (∀ p, ev_unlink p ∈ trace (create_driver h d) →
        ∃ stem, tmp_stem h = Return stem ∧ p = stem +:+ ".sh").
Proof.
  assert (Hprobe : ∀ (t : list event) ev, (∀ e, e ∈ t → is_probe e = true) →
                           ev ∈ t → is_probe ev = false → False).
  { intros t ev Ht Hin Hno. rewrite (Ht ev Hin) in Hno. discriminate Hno. }
  driver_cases h d.
  - repeat split; intros; match goal with H : _ ∈ _ |- _ => in_trace H end.
  - destruct r as [invocation|]; [|discriminate Htruthy].
    change (default "" (Some invocation)) with invocation.
    pose proof (flatpak_attempt_file_calls h invocation
                  (get_options (environ h)) d)
      as (Htmp & Hwr & Hch & Hun).
    destruct (flatpak_attempt _ _ _ _) as [[[drv|]|x] d2 t2]; cbn in *;
      (split; [|split; [|split]]); intros;
      match goal with
      | H : _ ∈ _ |- _ =>
          apply elem_of_cons in H as [H|H]; [discriminate H|];
          apply elem_of_cons in H as [H|H]; [discriminate H|];
          apply elem_of_app in H as [H|H];
            [by destruct (Hprobe _ _ Hprobes H)|];
          try (rewrite app_nil_r in H)
      end;
      first [ by apply Htmp
            | by (destruct (Hwr _ _ ltac:(eassumption)) as [? ->]; eauto)
            | by apply Hch
            | by apply Hun ].
  - pose proof (direct_attempt_file_calls h (default "" r)
                  (get_options (environ h)) d) as Hdirect.
    destruct (direct_attempt _ _ _ _) as [[[drv|]|x] d2 t2]; cbn in *;
      (split; [|split; [|split]]); intros;
      match goal with
      | H : _ ∈ _ |- _ =>
          apply elem_of_cons in H as [H|H]; [discriminate H|];
          apply elem_of_cons in H as [H|H]; [discriminate H|];
          apply elem_of_app in H as [H|H];
            [by destruct (Hprobe _ _ Hprobes H)|];
          try (rewrite app_nil_r in H);
          by destruct (Hdirect _ H)
      end.
  - (split; [|split; [|split]]); intros;
      match goal with
      | H : _ ∈ _ |- _ =>
          apply elem_of_cons in H as [H|H]; [discriminate H|];
          apply elem_of_cons in H as [H|H]; [discriminate H|];
          apply elem_of_app in H as [H|H];
            [by destruct (Hprobe _ _ Hprobes H)|];
          in_trace H
      end.
  - (split; [|split; [|split]]); intros;
      match goal with
      | H : _ ∈ _ |- _ =>
          apply elem_of_cons in H as [H|H]; [discriminate H|];
          apply elem_of_cons in H as [H|H]; [discriminate H|];
          by destruct (Hprobe _ _ Hprobes H)
      end.
Qed.

Lemma create_driver_file_calls_witness :
  ev_unlink "/tmp/tmpk3x9.sh"
  ∈ trace (create_driver Sample.linux_flatpak_broken ∅) ∧
  ev_write "/tmp/tmpk3x9.sh" (wrapper_content "flatpak run com.google.Chrome")
  ∈ trace (create_driver Sample.linux_flatpak_broken ∅) ∧
  (∃ stem, tmp_stem Sample.linux_flatpak_broken = Return stem ∧
           "/tmp/tmpk3x9.sh" = stem +:+ ".sh") ∧
  (∃ invocation,
     result (find_chrome Sample.linux_flatpak_broken ∅)
     = Return (Some invocation) ∧
     wrapper_content "flatpak run com.google.Chrome"
     = wrapper_content invocation).
Proof.
  assert (Hunlink : ev_unlink "/tmp/tmpk3x9.sh"
                    ∈ trace (create_driver Sample.linux_flatpak_broken ∅)).
  { vm_compute.
    repeat first [apply list_elem_of_here | apply list_elem_of_further]. }
  assert (Hwrite : ev_write "/tmp/tmpk3x9.sh"
                     (wrapper_content "flatpak run com.google.Chrome")
                   ∈ trace (create_driver Sample.linux_flatpak_broken ∅)).
  { vm_compute.
    repeat first [apply list_elem_of_here | apply list_elem_of_further]. }
  split; [exact Hunlink|]. split; [exact Hwrite|].
  destruct (create_driver_file_calls Sample.linux_flatpak_broken ∅)
    as (_ & Hwr & _ & Hun).
  split; [exact (Hun _ Hunlink)|exact (proj2 (Hwr _ _ Hwrite))].
Defined.

(** * What the log says *)

Lemma flatpak_step_no_error h d msg :
  ev_log ERROR msg ∉ trace (flatpak_step h d).
Proof.
  unfold flatpak_step, scan_apps. unfold_calls.
  run_cases; intros Hin; in_trace Hin.
Qed.

Lemma path_step_error h d msg :
  ev_log ERROR msg ∈ trace (path_step h d) →
  result (path_step h d) = Return None.
Proof.
  unfold path_step. unfold_calls.
  run_cases; intros Hin; in_trace Hin; done.
Qed.

(** A locator that answers a path has logged no error. *)
Lemma find_chrome_no_error h d path msg :
  result (find_chrome h d) = Return (Some path) →
  ev_log ERROR msg ∉ trace (find_chrome h d).
Proof.
  unfold find_chrome, bind. intros Hres Hin.
  pose proof (scan_paths_trace possiblePaths d (ev_log ERROR msg)) as Hscan.
  destruct (scan_paths possiblePaths d) as [[[hit|]|x] d1 t1]; cbn in *.
  - rewrite app_nil_r in Hin. by destruct (Hscan Hin).
  - pose proof (flatpak_step_no_error h d1 msg) as Hflat.
    destruct (flatpak_step h d1) as [[[inv|]|x] d2 t2]; cbn in *.
    + rewrite app_nil_r in Hin.
      apply elem_of_app in Hin as [Hin|Hin]; [by destruct (Hscan Hin)|done].
    + pose proof (path_step_error h d2 msg) as Hpath.
      destruct (path_step h d2) as [r3 d3 t3]; cbn in *.
      apply elem_of_app in Hin as [Hin|Hin]; [by destruct (Hscan Hin)|].
      apply elem_of_app in Hin as [Hin|Hin]; [done|].
      specialize (Hpath Hin). congruence.
    + discriminate Hres.
  - discriminate Hres.
Qed.

(** Each retry logs an error exactly when it gives no driver. *)
Lemma flatpak_attempt_error h path o d :
  (∃ msg, ev_log ERROR msg ∈ trace (flatpak_attempt h path o d)) ↔
  result (flatpak_attempt h path o d) = Return None.
Proof.
  unfold_attempts.
  run_cases; no_escape;
    (split; [intros [msg Hin]; in_trace Hin; done
            |intros Hres; try discriminate Hres;
             eexists; repeat first [apply list_elem_of_here
                                   |apply list_elem_of_further]]).
Qed.

Lemma direct_attempt_error h path o d :
  (∃ msg, ev_log ERROR msg ∈ trace (direct_attempt h path o d)) ↔
  result (direct_attempt h path o d) = Return None.
Proof.
  unfold_attempts.
  run_cases; no_escape;
    (split; [intros [msg Hin]; in_trace Hin; done
            |intros Hres; try discriminate Hres;
             eexists; repeat first [apply list_elem_of_here
                                   |apply list_elem_of_further]]).
Qed.

(** X14: the log tells the outcome.  As long as the locator itself does
    not raise, a run of [create_driver] logs at level ERROR exactly when
    it ends in the terminal error: a run that returns a driver has
    logged no error, and the terminal error is never raised without an
    error line before it. *)
Theorem create_driver_error_logged h (d : gmap string file) :
  (∀ e, result (find_chrome h d) ≠ Raise e) →
  (∃ msg, ev_log ERROR msg ∈ trace (create_driver h d)) ↔
  result (create_driver h d) = Raise terminal_error.
Proof.
  intros Hlocator.
  pose proof (λ path msg, find_chrome_no_error h d path msg) as Hquiet.
  driver_cases h d.
  - split; [intros [msg Hin]; in_trace Hin|discriminate].
  - destruct r as [path|]; [|discriminate Htruthy].
    specialize (Hquiet path).
    pose proof (flatpak_attempt_error h path (get_options (environ h)) d)
      as Herr.
    change (default "" (Some path)) with path.
    destruct (flatpak_attempt _ _ _ _) as [[[drv|]|x] d2 t2] eqn:Hattempt;
      cbn in *.
    + split; [|discriminate]. intros [msg Hin]. in_trace Hin.
      * by destruct (Hquiet msg eq_refl).
      * assert (Hno : Return (Some drv) = Return (None : option WebDriver))
          by (apply Herr; eauto).
        discriminate Hno.
    + split; [done|]. intros _.
      destruct (proj2 Herr eq_refl) as [msg Hin]. exists msg.
      do 2 apply list_elem_of_further. apply elem_of_app. right.
      apply elem_of_app. by left.
    + destruct (flatpak_attempt_returns h path (get_options (environ h)) d)
        as [o Ho].
      rewrite Hattempt in Ho. discriminate Ho.
  - destruct r as [path|]; [|discriminate Htruthy].
    specialize (Hquiet path).
    pose proof (direct_attempt_error h path (get_options (environ h)) d)
      as Herr.
    change (default "" (Some path)) with path.
    destruct (direct_attempt _ _ _ _) as [[[drv|]|x] d2 t2] eqn:Hattempt;
      cbn in *.
    + split; [|discriminate]. intros [msg Hin]. in_trace Hin.
      * by destruct (Hquiet msg eq_refl).
      * assert (Hno : Return (Some drv) = Return (None : option WebDriver))
          by (apply Herr; eauto).
        discriminate Hno.
    + split; [done|]. intros _.
      destruct (proj2 Herr eq_refl) as [msg Hin]. exists msg.
      do 2 apply list_elem_of_further. apply elem_of_app. right.
      apply elem_of_app. by left.
    + destruct (direct_attempt_returns h path (get_options (environ h)) d)
        as [o Ho].
      rewrite Hattempt in Ho. discriminate Ho.
  - split; [done|]. intros _. eexists.
    do 2 apply list_elem_of_further. apply elem_of_app. right.
    apply list_elem_of_here.
  - by destruct (Hlocator e).
Qed.

Lemma create_driver_error_logged_witness :
  (∀ e, result (find_chrome Sample.linux_flatpak_broken ∅) ≠ Raise e) ∧
  ∃ msg, ev_log ERROR msg
         ∈ trace (create_driver Sample.linux_flatpak_broken ∅).
Proof.
  assert (Hlocator : ∀ e, result (find_chrome Sample.linux_flatpak_broken ∅)
                          ≠ Raise e)
    by (intros e; vm_compute; discriminate).
  split; [exact Hlocator|].
  apply (create_driver_error_logged Sample.linux_flatpak_broken ∅ Hlocator).
  vm_compute. reflexivity.
Defined.

(** X15: a PATH lookup that raises is absorbed.  Off Linux, with no
    candidate on disk, when the lookup of the browser raises (that of
    chrome on Windows; elsewhere that of google-chrome, or that of
    chromium after google-chrome did not resolve), [find_chrome] logs
    one error that carries the text of the exception, as its last call,
    and answers [None]. *)
Theorem path_lookup_error_absorbed h (d : gmap string file) e :
  (∀ q, q ∈ possiblePaths → d !! q = None) →
  system h ≠ "Linux" →
  (if String.eqb (system h) "Windows" then which h "chrome" = Raise e
   else which h "google-chrome" = Raise e ∨
        ∃ g, which h "google-chrome" = Return g ∧ PyStr.truthy g = false ∧
             which h "chromium" = Raise e) →
  result (find_chrome h d) = Return None ∧
  last (trace (find_chrome h d))
  = Some (ev_log ERROR
            ("Error while searching system paths for Chrome: "
             +:+ exn_str e)) ∧
  ∀ argv timeout, ev_run argv timeout ∉ trace (find_chrome h d).
Proof.
  intros Hnone Hsys%String.eqb_neq Hlookup.
  rewrite find_chrome_no_candidate by done. cbn zeta.
  assert (Hflat : flatpak_step h d = Run (Return None) d [ev_system]).
  { unfold flatpak_step. unfold_calls. cbn. by rewrite Hsys. }
  rewrite Hflat. cbn [result disk trace].
  assert (Hpath : ∃ lookups,
    path_step h d
    = Run (Return None) d
          (ev_system :: (ev_which <$> lookups) ++
           [ev_log ERROR
              ("Error while searching system paths for Chrome: "
               +:+ exn_str e)])).
  { unfold path_step. unfold_calls. cbn.
    destruct (String.eqb (system h) "Windows"); cbn.
    - rewrite Hlookup. cbn. rewrite caught_by_Exception.
      by exists ["chrome"].
    - destruct Hlookup as [Hg|(g & Hg & Hfalsy & Hc)].
      + rewrite Hg. cbn. rewrite caught_by_Exception.
        by exists ["google-chrome"].
      + rewrite Hg. cbn. rewrite Hfalsy. cbn. rewrite Hc. cbn.
        rewrite caught_by_Exception.
        by exists ["google-chrome"; "chromium"]. }
  destruct Hpath as [lookups ->]. cbn [result disk trace].
  split; [done|]. split.
  - rewrite !app_assoc, !app_comm_cons, !app_assoc. apply last_snoc.
  - intros argv timeout Hin.
    apply elem_of_app in Hin as [(q & Hq & _)%list_elem_of_fmap|Hin];
      [discriminate Hq|].
    apply elem_of_cons in Hin as [Hin|Hin]; [discriminate Hin|].
    apply elem_of_cons in Hin as [Hin|Hin]; [discriminate Hin|].
    apply elem_of_app in Hin as [(q & Hq & _)%list_elem_of_fmap|Hin];
      [discriminate Hq|].
    in_trace Hin.
Qed.

Lemma path_lookup_error_absorbed_witness :
  system Sample.mac_path_error ≠ "Linux" ∧
  result (find_chrome Sample.mac_path_error ∅) = Return None ∧
  last (trace (find_chrome Sample.mac_path_error ∅))
  = Some (ev_log ERROR
            "Error while searching system paths for Chrome: embedded null byte").
Proof.
  assert (Hsys : system Sample.mac_path_error ≠ "Linux") by discriminate.
  split; [exact Hsys|].
  destruct (path_lookup_error_absorbed Sample.mac_path_error ∅
              (Exn ValueError "embedded null byte")
              (λ q _, lookup_empty q) Hsys (or_introl eq_refl))
    as (Hres & Hlast & _).
  split; [exact Hres|exact Hlast].
Defined.
